(** * check_process_cpu_usage.py: a shallow embedding and its properties

    The development follows the script top to bottom:
    - [Py]: the Python values, numbers and exceptions the script handles;
    - [Re]: the backtracking matcher behind [re.match], with named groups;
    - [Threshold]: class [NagiosThreshold];
    - [Store]: [CpuTimesNamedTuple] with [save_to_disk] / [load_from_disk];
    - [Probe]: [tb2unknown], [get_pid_from_command], [get_pid_cpu_percent]
      and the [__main__] block, over the collaborators (psutil, the shell,
      float rendering) taken as section variables.

    A float is modelled by the exact rational value of the double, or one
    of the infinities, or NaN; [float(text)] rounds to the nearest double
    as the interpreter does.  A text ([str]) is a string of Rocq's [ascii]:
    its characters are the code points below 256, among which [\d] and
    [float()] know the digits [0] to [9] only.  The output of a command
    ([bytes]) is a list of [ascii], and turning it into a text is the
    codec's work, a collaborator. *)

From Stdlib Require Import ZArith QArith String Ascii List Lia.
From stdpp Require Import gmap strings pretty.
Import ListNotations.

Set Warnings "-register-all".
#[local] Open Scope Z_scope.
#[local] Open Scope string_scope.
#[local] Open Scope list_scope.

(* ===================================================================== *)
(** ** Python values *)
(* ===================================================================== *)

Module Py.

(** A Python [float]: not a number, a finite value (the exact value of the
    double) or one of the infinities. *)
Inductive pyfloat :=
| NaN
| NegInf
| Fin (q : Q)
| PosInf.

(** [a < b] on floats; every comparison with NaN is false. *)
Definition flt (a b : pyfloat) : bool :=
  match a, b with
  | NaN, _ => false
  | _, NaN => false
  | NegInf, NegInf => false
  | NegInf, _ => true
  | Fin _, NegInf => false
  | Fin x, Fin y => negb (Qle_bool y x)
  | Fin _, PosInf => true
  | PosInf, _ => false
  end.

(** [a <= b] on floats. *)
Definition fle (a b : pyfloat) : bool :=
  match a, b with
  | NaN, _ => false
  | _, NaN => false
  | NegInf, _ => true
  | Fin _, NegInf => false
  | Fin x, Fin y => Qle_bool x y
  | Fin _, PosInf => true
  | PosInf, PosInf => true
  | PosInf, _ => false
  end.

(** [float(text)] for a decimal text denoting [A / B] with [A >= 0]: the
    double nearest to the quotient, ties to the even mantissa, as the
    interpreter's correctly rounded conversion gives it.  A double is
    [m * 2 ^ e] with [m < 2 ^ 53] and [-1074 <= e <= 971]; what rounds
    beyond the largest double is plus infinity. *)
Definition lt_shifted (A B p : Z) : bool :=   (* A < B * 2 ^ p *)
  if Z.leb 0 p then Z.ltb A (B * 2 ^ p) else Z.ltb (A * 2 ^ (- p)) B.

Definition round_to_double (A : Z) (B : positive) : pyfloat :=
  if Z.eqb A 0 then Fin (inject_Z 0)
  else
    let e0 := Z.log2 A - Z.log2 (Zpos B) - 52 in
    let e1 := if lt_shifted A (Zpos B) (52 + e0) then e0 - 1 else e0 in
    let e := Z.max e1 (-1074) in
    let num := if Z.leb 0 e then A else A * 2 ^ (- e) in
    let den := if Z.leb 0 e then Zpos B * 2 ^ e else Zpos B in
    let m0 := num / den in
    let r := num mod den in
    let m := if Z.ltb den (2 * r) || (Z.eqb (2 * r) den && Z.odd m0)
             then m0 + 1 else m0 in
    if Z.ltb 971 e || (Z.eqb e 971 && Z.eqb m (2 ^ 53)) then PosInf
    else Fin (Qred (if Z.leb 0 e then inject_Z (m * 2 ^ e)
                    else Qmake m (Z.to_pos (2 ^ (- e))))).

(** The numbers that reach the threshold code: the [int] literal [0] that
    [NagiosThreshold.__init__] stores as default low boundary, or a float. *)
Inductive pynum :=
| NInt (z : Z)
| NFloat (x : pyfloat).

Definition to_float (n : pynum) : pyfloat :=
  match n with
  | NInt z => Fin (inject_Z z)
  | NFloat x => x
  end.

(** Python's mixed int/float comparisons. *)
Definition num_lt (a b : pynum) : bool := flt (to_float a) (to_float b).
Definition num_le (a b : pynum) : bool := fle (to_float a) (to_float b).
Definition num_gt (a b : pynum) : bool := num_lt b a.
Definition num_ge (a b : pynum) : bool := num_le b a.

(** The order the comparisons decide, as propositions. *)
Definition float_lt (a b : pyfloat) : Prop :=
  match a, b with
  | NaN, _ => False
  | _, NaN => False
  | NegInf, NegInf => False
  | NegInf, _ => True
  | Fin _, NegInf => False
  | Fin x, Fin y => (x < y)%Q
  | Fin _, PosInf => True
  | PosInf, _ => False
  end.

Definition float_le (a b : pyfloat) : Prop :=
  match a, b with
  | NaN, _ => False
  | _, NaN => False
  | NegInf, _ => True
  | Fin _, NegInf => False
  | Fin x, Fin y => (x <= y)%Q
  | Fin _, PosInf => True
  | PosInf, PosInf => True
  | PosInf, _ => False
  end.

(** A float that is not negative: plus infinity, or a finite value from
    zero up. *)
Definition nonneg_float (x : pyfloat) : Prop :=
  x = PosInf \/ exists q, x = Fin q /\ (0 <= q)%Q.

Definition lt (a b : pynum) : Prop := float_lt (to_float a) (to_float b).
Definition le (a b : pynum) : Prop := float_le (to_float a) (to_float b).

(** What [json.load] can return, which is also what the fields of a loaded
    [CpuTimesNamedTuple] can hold: the named tuple does not check types. *)
Inductive pyval :=
| PNone
| PBool (b : bool)
| PInt (z : Z)
| PFloat (x : pyfloat)
| PStr (s : string)
| PList (l : list pyval)
| PDict (d : gmap string pyval).

(** [v != n] for an [int] [n]: numbers compare by value ([True == 1],
    [7.0 == 7]), everything else differs from an int. *)
Definition ne_int (v : pyval) (n : Z) : bool :=
  match v with
  | PInt z => negb (Z.eqb z n)
  | PBool b => negb (Z.eqb (if b then 1 else 0) n)
  | PFloat (Fin q) => negb (Qeq_bool q (inject_Z n))
  | _ => true
  end.

(** The exception classes the script can meet. *)
Inductive exc_class :=
| FileNotFoundError
| PermissionError
| IsADirectoryError
| JSONDecodeError
| UnicodeDecodeError
| TypeError
| ValueError
| OverflowError
| AssertionError
| RuntimeError
| NoSuchProcess
| AccessDenied
| AttributeError
| OSError.

(** [exc.__class__.__name__] *)
Definition class_name (c : exc_class) : string :=
  match c with
  | FileNotFoundError => "FileNotFoundError"
  | PermissionError => "PermissionError"
  | IsADirectoryError => "IsADirectoryError"
  | JSONDecodeError => "JSONDecodeError"
  | UnicodeDecodeError => "UnicodeDecodeError"
  | TypeError => "TypeError"
  | ValueError => "ValueError"
  | OverflowError => "OverflowError"
  | AssertionError => "AssertionError"
  | RuntimeError => "RuntimeError"
  | NoSuchProcess => "NoSuchProcess"
  | AccessDenied => "AccessDenied"
  | AttributeError => "AttributeError"
  | OSError => "OSError"
  end.

(** An exception instance: its class and [str(exc)]. *)
Record exn := Exn { exc_cls : exc_class; exc_str : string }.

(** [isinstance(exc, FileNotFoundError)], the test of the first [except]. *)
Definition is_FileNotFoundError (e : exn) : bool :=
  match exc_cls e with
  | FileNotFoundError => true
  | _ => false
  end.

(** [type(v).__name__] *)
Definition type_name (v : pyval) : string :=
  match v with
  | PNone => "NoneType"
  | PBool _ => "bool"
  | PInt _ => "int"
  | PFloat _ => "float"
  | PStr _ => "str"
  | PList _ => "list"
  | PDict _ => "dict"
  end.

(** ["%d" % v]: ints and bools print in decimal, a finite float is truncated
    towards zero, an infinity overflows, NaN is a [ValueError], anything
    else is a [TypeError]. *)
Definition format_d (v : pyval) : exn + string :=
  match v with
  | PInt z => inr (pretty z)
  | PBool b => inr (if b then "1" else "0")
  | PFloat (Fin q) => inr (pretty (Z.quot (Qnum q) (Zpos (Qden q))))
  | PFloat NaN => inl (Exn ValueError "cannot convert float NaN to integer")
  | PFloat _ => inl (Exn OverflowError "cannot convert float infinity to integer")
  | _ => inl (Exn TypeError ("%d format: a real number is required, not " +:+ type_name v))
  end.

End Py.
Export Py.

(* ===================================================================== *)
(** ** The regular-expression matcher *)
(* ===================================================================== *)

Module Re.

(** The regex constructs the threshold pattern uses.  [Grp] is a named
    group [(?P<name>...)]; the pattern's unnamed groups only parenthesise
    and are not recorded, since the script reads [groupdict()] alone. *)
Inductive regex :=
| Chr (c : ascii)
| Digit
| Cat (r1 r2 : regex)
| Alt (r1 r2 : regex)
| Opt (r : regex)
| Plus (r : regex)
| Grp (name : string) (r : regex).

(** [\d].  Among the code points below 256, the range of Rocq's [ascii],
    the decimal digits are [0] to [9] and no others. *)
Definition is_digit (c : ascii) : bool :=
  let n := nat_of_ascii c in (48 <=? n)%nat && (n <=? 57)%nat.

(** The named groups matched so far, as [groupdict()] shows them: a group
    that took no part in the match is absent ([None]). *)
Abbreviation groups := (gmap string (list ascii)).

(** One backtracking state: the text still to match and the groups. *)
Abbreviation state := (list ascii * groups)%type.

(** Greedy [r+]: after one more [r], first try to repeat, then stop.  The
    fuel is the length of the text, enough when [r] consumes a character. *)
Fixpoint repeat_ (step : list ascii -> groups -> list state) (fuel : nat)
    (s : list ascii) (g : groups) : list state :=
  match fuel with
  | O => step s g
  | S fuel' =>
      flat_map (fun st : state => repeat_ step fuel' (fst st) (snd st) ++ [st])
               (step s g)
  end.

(** All the ways [r] matches a prefix of [s], in the order the backtracking
    engine tries them: greedy quantifiers first take, then skip; [Alt] tries
    its left branch first. *)
Fixpoint run (r : regex) (s : list ascii) (g : groups) : list state :=
  match r with
  | Chr c =>
      match s with
      | c' :: s' => if Ascii.eqb c c' then [(s', g)] else []
      | [] => []
      end
  | Digit =>
      match s with
      | c' :: s' => if is_digit c' then [(s', g)] else []
      | [] => []
      end
  | Cat r1 r2 => flat_map (fun st : state => run r2 (fst st) (snd st)) (run r1 s g)
  | Alt r1 r2 => run r1 s g ++ run r2 s g
  | Opt r1 => run r1 s g ++ [(s, g)]
  | Plus r1 => repeat_ (run r1) (length s) s g
  | Grp name r1 =>
      map (fun st : state =>
             (fst st, <[name := firstn (length s - length (fst st)) s]> (snd st)))
          (run r1 s g)
  end.

(** [re.match(pattern, text)]: the first way the pattern matches at the
    start of the text, wherever that match ends. *)
Definition re_match (r : regex) (text : list ascii) : option groups :=
  match run r text ∅ with
  | [] => None
  | st :: _ => Some (snd st)
  end.

End Re.

(* ===================================================================== *)
(** ** NagiosThreshold *)
(* ===================================================================== *)

Module Threshold.
Import Re.

(** [\d+(\.\d+)?] *)
Definition number : regex :=
  Cat (Plus Digit) (Opt (Cat (Chr ".") (Plus Digit))).

(** The pattern of [NagiosThreshold.__init__]:
    [^(?P<is_inclusive>@?)((?P<low_boundary>(\d+(\.\d+)?|~))?:)?(?P<high_boundary>\d+(\.\d+)?)?]
    ([^] is implied by [re.match]; there is no [$]). *)
Definition pattern : regex :=
  Cat (Grp "is_inclusive" (Opt (Chr "@")))
      (Cat (Opt (Cat (Opt (Grp "low_boundary" (Alt number (Chr "~")))) (Chr ":")))
           (Opt (Grp "high_boundary" number))).

(** The value of a run of decimal digits. *)
Definition digits_value (ds : list ascii) : Z :=
  fold_left (fun acc c => 10 * acc + (Z.of_nat (nat_of_ascii c) - 48)) ds 0.

(** Split off the leading digits. *)
Fixpoint span_digits (s : list ascii) : list ascii * list ascii :=
  match s with
  | c :: s' =>
      if is_digit c then
        let r := span_digits s' in (c :: fst r, snd r)
      else ([], s)
  | [] => ([], [])
  end.

(** [float(text)] on the texts the pattern can capture, digits with an
    optional fraction: the double nearest to the decimal number.  Other
    texts never reach it from [__init__]; they are given a [ValueError]. *)
Definition py_float (text : list ascii) : exn + pyfloat :=
  let ip := fst (span_digits text) in
  let rest := snd (span_digits text) in
  match ip, rest with
  | _ :: _, [] => inr (round_to_double (digits_value ip) 1)
  | _ :: _, c :: fp =>
      if Ascii.eqb c "." && forallb is_digit fp && negb (Nat.eqb (length fp) 0)
      then inr (round_to_double
                  (digits_value ip * 10 ^ Z.of_nat (length fp) + digits_value fp)
                  (Z.to_pos (10 ^ Z.of_nat (length fp))))
      else inl (Exn ValueError "could not convert string to float")
  | [], _ => inl (Exn ValueError "could not convert string to float")
  end.

(** The attributes [__init__] sets. *)
Record NagiosThreshold := {
  inclusive : bool;
  low_boundary : pynum;
  high_boundary : pynum;
}.

(** [bool(matched[name])]: [None] and the empty string are false. *)
Definition group_truthy (m : groups) (name : string) : bool :=
  match m !! name with
  | Some (_ :: _) => true
  | _ => false
  end.

(** [NagiosThreshold.__init__(raw)] *)
Definition init (raw : string) : exn + NagiosThreshold :=
  if String.eqb raw EmptyString then
    inl (Exn AssertionError "raw parameter must be a non-empty string")
  else
    match re_match pattern (list_ascii_of_string raw) with
    | None =>
        inl (Exn AssertionError
               ("cannot parsed threshold " +:+ raw +:+ ", did not match regexp"))
    | Some matched =>
        let inclusive := group_truthy matched "is_inclusive" in
        let low :=
          match matched !! "low_boundary" with
          | None => inr (NInt 0)
          | Some text =>
              if String.eqb (string_of_list_ascii text) "~"
              then inr (NFloat NegInf)
              else match py_float text with
                   | inr x => inr (NFloat x)
                   | inl e => inl e
                   end
          end in
        match low with
        | inl e => inl e
        | inr low =>
            let high :=
              match matched !! "high_boundary" with
              | Some text => py_float text
              | None => inr PosInf
              end in
            match high with
            | inl e => inl e
            | inr high =>
                inr {| inclusive := inclusive;
                       low_boundary := low;
                       high_boundary := NFloat high |}
            end
        end
    end.

(** *** The four-form grammar

    The texts [N], [N:], [~:N] and [N:M], optionally prefixed with [@],
    where a number [N] is what the pattern accepts as a boundary: decimal
    digits with an optional fraction. *)

Inductive digit := D0 | D1 | D2 | D3 | D4 | D5 | D6 | D7 | D8 | D9.

Definition digit_char (d : digit) : ascii :=
  match d with
  | D0 => "0" | D1 => "1" | D2 => "2" | D3 => "3" | D4 => "4"
  | D5 => "5" | D6 => "6" | D7 => "7" | D8 => "8" | D9 => "9"
  end%char.

Definition digit_val (d : digit) : Z :=
  match d with
  | D0 => 0 | D1 => 1 | D2 => 2 | D3 => 3 | D4 => 4
  | D5 => 5 | D6 => 6 | D7 => 7 | D8 => 8 | D9 => 9
  end.

(** A non-empty run of digits. *)
Record digits := Digits { first_digit : digit; more_digits : list digit }.

Definition digits_list (p : digits) : list digit :=
  first_digit p :: more_digits p.

Definition digits_text (p : digits) : list ascii :=
  map digit_char (digits_list p).

Definition digits_val (p : digits) : Z :=
  fold_left (fun acc d => 10 * acc + digit_val d) (digits_list p) 0.

(** A number literal and the float it denotes: the double nearest to the
    decimal number written, plus infinity beyond the largest double. *)
Record literal := Literal { whole : digits; fraction : option digits }.

Definition literal_text (n : literal) : list ascii :=
  digits_text (whole n) ++
  match fraction n with
  | Some f => "."%char :: digits_text f
  | None => []
  end.

Definition literal_value (n : literal) : pyfloat :=
  match fraction n with
  | None => round_to_double (digits_val (whole n)) 1
  | Some f =>
      round_to_double
        (digits_val (whole n) * 10 ^ Z.of_nat (length (digits_list f)) + digits_val f)
        (Z.to_pos (10 ^ Z.of_nat (length (digits_list f))))
  end.

Inductive form :=
| Upto (n : literal)               (* N *)
| From (n : literal)               (* N: *)
| TildeUpto (n : literal)          (* ~:N *)
| Between (n m : literal).         (* N:M *)

Definition form_chars (f : form) : list ascii :=
  match f with
  | Upto n => literal_text n
  | From n => literal_text n ++ [":"%char]
  | TildeUpto n => "~"%char :: ":"%char :: literal_text n
  | Between n m => literal_text n ++ ":"%char :: literal_text m
  end.

Definition prefix_chars (at_prefix : bool) : list ascii :=
  if at_prefix then ["@"%char] else [].

(** The threshold text of a form, with or without the [@] prefix. *)
Definition form_text (at_prefix : bool) (f : form) : string :=
  string_of_list_ascii (prefix_chars at_prefix ++ form_chars f).

(** The boundaries the grammar gives a form: low defaults to the int [0],
    [~] is minus infinity, high defaults to plus infinity. *)
Definition form_low (f : form) : pynum :=
  match f with
  | Upto _ => NInt 0
  | From n => NFloat (literal_value n)
  | TildeUpto _ => NFloat NegInf
  | Between n _ => NFloat (literal_value n)
  end.

Definition form_high (f : form) : pynum :=
  match f with
  | Upto n => NFloat (literal_value n)
  | From _ => NFloat PosInf
  | TildeUpto n => NFloat (literal_value n)
  | Between _ m => NFloat (literal_value m)
  end.

Section Evaluation.

(** [str(x)] for a float, the interpreter's shortest round-trip rendering,
    is not modelled: every result below holds whatever it prints. *)
Variable str_float : pyfloat -> string.

(** ["%s" % n] *)
Definition str_num (n : pynum) : string :=
  match n with
  | NInt z => pretty z
  | NFloat x => str_float x
  end.

(** [NagiosThreshold.is_outside_boundaries(number)].  The assertion on the
    type of [number] holds by typing. *)
Definition is_outside_boundaries (self : NagiosThreshold) (number : pynum)
    : option string :=
  if inclusive self then
    if num_lt number (low_boundary self) then
      Some (str_num number +:+ "<" +:+ str_num (low_boundary self))
    else if num_gt number (high_boundary self) then
      Some (str_num number +:+ ">" +:+ str_num (high_boundary self))
    else None
  else
    if num_le number (low_boundary self) then
      Some (str_num number +:+ "<=" +:+ str_num (low_boundary self))
    else if num_ge number (high_boundary self) then
      Some (str_num number +:+ ">=" +:+ str_num (high_boundary self))
    else None.

End Evaluation.

End Threshold.

(* ===================================================================== *)
(** ** The world the script runs in, and [tb2unknown] *)
(* ===================================================================== *)

Module Runtime.

(** What [open(path)] finds at a path where something exists. *)
Inductive file :=
| Unreadable               (* [open(path, "r")] raises [PermissionError] *)
| Garbage (text : string)  (* text that [json.load] rejects *)
| JsonDoc (v : pyval).     (* the JSON text of the value [v] *)

(** The state one invocation reads and writes: the files, the paths where
    [open(path, "w")] is refused, what was printed so far (oldest line
    first), and the module global [DEBUG].  Every path names a file of its
    own: there are no links, through which a write at one path would
    change what another path reads, so nothing is stated here about files
    other than the one a call names. *)
Record World := {
  files : gmap string file;
  write_denied : gset string;
  stdout : list string;
  DEBUG : bool;
}.

(** How a Python call ends: it returns, raises, or [sys.exit(code)] unwinds
    the interpreter ([SystemExit] is no [Exception], so no [except
    Exception] clause stops it). *)
Inductive outcome (A : Type) :=
| Return (a : A)
| Raise (e : exn)
| SysExit (code : Z).
Arguments Return {A} a.
Arguments Raise {A} e.
Arguments SysExit {A} code.

(** A computation in the world. *)
Definition M (A : Type) : Type := World -> outcome A * World.

Definition ret {A} (a : A) : M A := fun w => (Return a, w).

Definition bind {A B} (m : M A) (k : A -> M B) : M B := fun w =>
  match m w with
  | (Return a, w') => k a w'
  | (Raise e, w') => (Raise e, w')
  | (SysExit c, w') => (SysExit c, w')
  end.

Definition raise {A} (e : exn) : M A := fun w => (Raise e, w).

(** [sys.exit(code)] *)
Definition sys_exit {A} (code : Z) : M A := fun w => (SysExit code, w).

(** A pure step that may raise. *)
Definition lift {A} (r : exn + A) : M A :=
  match r with
  | inl e => raise e
  | inr a => ret a
  end.

(** [assert cond, message] *)
Definition assert_ (cond : bool) (message : string) : M unit :=
  if cond then ret tt else raise (Exn AssertionError message).

(** [print(line)] *)
Definition print (line : string) : M unit := fun w =>
  (Return tt, {| files := files w; write_denied := write_denied w;
                 stdout := stdout w ++ [line]; DEBUG := DEBUG w |}).

(** [DEBUG = value] *)
Definition set_DEBUG (value : bool) : M unit := fun w =>
  (Return tt, {| files := files w; write_denied := write_denied w;
                 stdout := stdout w; DEBUG := value |}).

#[export] Instance M_ret : MRet M := @ret.
#[export] Instance M_bind : MBind M := fun A B k m => bind m k.

(** The decorator [tb2unknown]: an exception of the wrapped method prints
    the UNKNOWN line, then is raised again when [DEBUG] is set and
    otherwise becomes [sys.exit(3)]. *)
Definition tb2unknown {A} (method_name : string) (method : M A) : M A := fun w =>
  match method w with
  | (Raise e, w') =>
      match print ("UNKNOWN: Got exception while running " +:+ method_name +:+ ": "
                   +:+ class_name (exc_cls e) +:+ ": " +:+ exc_str e) w' with
      | (_, w'') => if DEBUG w'' then (Raise e, w'') else (SysExit 3, w'')
      end
  | r => r
  end.

(** What the interpreter reports to its parent when the script ends: an
    uncaught exception prints a traceback on stderr and gives status 1. *)
Definition exit_status {A} (o : outcome A) : Z :=
  match o with
  | Return _ => 0
  | Raise _ => 1
  | SysExit code => code
  end.

End Runtime.
Export Runtime.

(* ===================================================================== *)
(** ** CpuTimesNamedTuple *)
(* ===================================================================== *)

Module Store.

(** The named tuple.  Python checks none of the annotated types, so a field
    holds whatever value it was given. *)
Record CpuTimesNamedTuple := {
  pid : pyval;
  timestamp : pyval;
  user : pyval;
  system : pyval;
  children_user : pyval;
  children_system : pyval;
  iowait : pyval;
}.

(** The field names, in declaration order. *)
Definition _fields : list string :=
  ["pid"; "timestamp"; "user"; "system"; "children_user"; "children_system"; "iowait"].

(** [self._asdict()] *)
Definition _asdict (self : CpuTimesNamedTuple) : gmap string pyval :=
  <["pid" := pid self]>
  (<["timestamp" := timestamp self]>
  (<["user" := user self]>
  (<["system" := system self]>
  (<["children_user" := children_user self]>
  (<["children_system" := children_system self]>
  (<["iowait" := iowait self]> ∅)))))).

(** [cls] called with the dict [data] as keyword arguments: a key that is no field, or a field
    without a key, is a [TypeError]. *)
Definition from_kwargs (data : gmap string pyval) : exn + CpuTimesNamedTuple :=
  if negb (bool_decide (dom data ⊆ list_to_set _fields)) then
    inl (Exn TypeError "__new__() got an unexpected keyword argument")
  else
    match data !! "pid", data !! "timestamp", data !! "user", data !! "system",
          data !! "children_user", data !! "children_system", data !! "iowait" with
    | Some p, Some t, Some u, Some s, Some cu, Some cs, Some io =>
        inr {| pid := p; timestamp := t; user := u; system := s;
               children_user := cu; children_system := cs; iowait := io |}
    | _, _, _, _, _, _, _ =>
        inl (Exn TypeError "__new__() missing required positional arguments")
    end.

(** The body of [save_to_disk]: [open(path, "w")] then [json.dump]. *)
Definition save_to_disk_body (self : CpuTimesNamedTuple) (path : string) : M unit :=
  fun w =>
    if bool_decide (path ∈ write_denied w) then
      (Raise (Exn PermissionError ("[Errno 13] Permission denied: '" +:+ path +:+ "'")), w)
    else
      (Return tt, {| files := <[path := JsonDoc (PDict (_asdict self))]> (files w);
                     write_denied := write_denied w;
                     stdout := stdout w; DEBUG := DEBUG w |}).

(** [@tb2unknown def save_to_disk(self, path)] *)
Definition save_to_disk (self : CpuTimesNamedTuple) (path : string) : M unit :=
  tb2unknown "save_to_disk" (save_to_disk_body self path).

(** [load_from_disk(cls, path)], not decorated: [open(path, "r")], then
    [json.load], then [cls] on the keywords of [data]. *)
Definition load_from_disk (path : string) : M CpuTimesNamedTuple := fun w =>
  match files w !! path with
  | None =>
      (Raise (Exn FileNotFoundError
                ("[Errno 2] No such file or directory: '" +:+ path +:+ "'")), w)
  | Some Unreadable =>
      (Raise (Exn PermissionError ("[Errno 13] Permission denied: '" +:+ path +:+ "'")), w)
  | Some (Garbage _) =>
      (Raise (Exn JSONDecodeError "Expecting value: line 1 column 1 (char 0)"), w)
  | Some (JsonDoc (PDict data)) => lift (from_kwargs data) w
  | Some (JsonDoc _) =>
      (Raise (Exn TypeError "argument after ** must be a mapping"), w)
  end.

(** A sample as the probe itself writes it: an int pid and float counters. *)
Definition well_formed (s : CpuTimesNamedTuple) : Prop :=
  (exists z, pid s = PInt z) /\
  (exists x, timestamp s = PFloat x) /\
  (exists x, user s = PFloat x) /\
  (exists x, system s = PFloat x) /\
  (exists x, children_user s = PFloat x) /\
  (exists x, children_system s = PFloat x) /\
  (exists x, iowait s = PFloat x).

End Store.
Export Store.

(* ===================================================================== *)
(** ** The probe *)
(* ===================================================================== *)

Module Probe.
Import Threshold.

(** [psutil._pslinux.pcputimes] *)
Record pcputimes := {
  pt_user : pyval;
  pt_system : pyval;
  pt_children_user : pyval;
  pt_children_system : pyval;
  pt_iowait : pyval;
}.

(** The counters psutil reads from the operating system: floats. *)
Record cpu_times := {
  ct_user : pyfloat;
  ct_system : pyfloat;
  ct_children_user : pyfloat;
  ct_children_system : pyfloat;
  ct_iowait : pyfloat;
}.

(** The part of a [psutil.Process] object the script touches.  The two
    private attributes are [None] on a fresh object. *)
Record Process := {
  proc_pid : Z;
  _last_sys_cpu_times : pyval;
  _last_proc_cpu_times : option pcputimes;
}.

(** The collaborators, none of them part of the repository: psutil and the
    operating system under it, the shell, the interpreter's float
    rendering, and where the script and the temporary files live. *)
Record Collaborators := {
  (* [psutil.Process(pid)] succeeds *)
  pid_exists : Z -> bool;
  (* [process.is_running()] *)
  is_running : Z -> bool;
  (* the timer and [cpu_times()] read inside [cpu_percent()] *)
  read_counters : Z -> exn + (pyfloat * cpu_times);
  (* the percentage [cpu_percent()] computes from the stored baseline
     (timestamp, counters) and the fresh reading *)
  percent_of : pyval -> option pcputimes -> pyfloat -> cpu_times -> exn + pyfloat;
  (* [psutil.cpu_count()] *)
  cpu_count : Z;
  (* [Popen(cmd, shell=True).communicate()]: return code, stdout, stderr *)
  run_shell : string -> exn + (Z * list ascii * list ascii);
  (* [str(b, "utf-8")] for bytes [b]: the decoded text, or the
     [UnicodeDecodeError] of the codec when [b] is not UTF-8 *)
  decode_utf8 : list ascii -> exn + string;
  (* [sys.get_int_max_str_digits()]: the longest run of digits [int()]
     converts, 4300 by default; 0 where there is no such limit *)
  int_max_str_digits : nat;
  (* ["%s" % x], ["%.1f" % x] and ["%1.f" % x] for a float [x] *)
  str_float : pyfloat -> string;
  fmt_1f : pyfloat -> string;
  fmt_0f : pyfloat -> string;
  (* [tempfile.gettempdir()] and [os.path.basename(__file__)] *)
  tempdir : string;
  script_name : string;
}.

Section WithCollaborators.

Variable os : Collaborators.

(** A [Process] object as the constructor leaves it. *)
Definition new_process (pid : Z) : Process :=
  {| proc_pid := pid; _last_sys_cpu_times := PNone; _last_proc_cpu_times := None |}.

(** [psutil.Process(pid)] *)
Definition psutil_Process (pid : Z) : M Process :=
  if pid_exists os pid then mret (new_process pid)
  else
    raise (Exn NoSuchProcess ("process PID not found (pid=" +:+ pretty pid +:+ ")")).

Definition float_times (t : cpu_times) : pcputimes :=
  {| pt_user := PFloat (ct_user t);
     pt_system := PFloat (ct_system t);
     pt_children_user := PFloat (ct_children_user t);
     pt_children_system := PFloat (ct_children_system t);
     pt_iowait := PFloat (ct_iowait t) |}.

(** [process.cpu_percent()] with no interval, as far as the script relies
    on it: it reads the counters now, computes the percentage against the
    baseline held in the two private attributes, and leaves the fresh
    reading in those attributes. *)
Definition cpu_percent (process : Process) : M (pyfloat * Process) :=
  match read_counters os (proc_pid process) with
  | inl e => raise e
  | inr (st2, pt2) =>
      match percent_of os (_last_sys_cpu_times process)
                       (_last_proc_cpu_times process) st2 pt2 with
      | inl e => raise e
      | inr percent =>
          mret (percent,
                {| proc_pid := proc_pid process;
                   _last_sys_cpu_times := PFloat st2;
                   _last_proc_cpu_times := Some (float_times pt2) |})
      end
  end.

(** The flags and values the [try] statement of [get_pid_cpu_percent]
    leaves behind. *)
Record load_result := {
  has_load_missing : bool;
  has_load_error : bool;
  exc : option exn;
  previous : option CpuTimesNamedTuple;
}.

(** Lines 272-283: the [try ... except FileNotFoundError ... except
    Exception]. *)
Definition try_load (buffer_file : string) : M load_result := fun w =>
  match load_from_disk buffer_file w with
  | (Return prev, w') =>
      (Return {| has_load_missing := false; has_load_error := false;
                 exc := None; previous := Some prev |}, w')
  | (Raise e, w') =>
      if is_FileNotFoundError e then
        (Return {| has_load_missing := true; has_load_error := false;
                   exc := Some e; previous := None |}, w')
      else
        (Return {| has_load_missing := false; has_load_error := true;
                   exc := Some e; previous := None |}, w')
  | (SysExit c, w') => (SysExit c, w')
  end.

(** Lines 285-286: [has_pid_changed]. *)
Definition pid_changed (l : load_result) (pid : Z) : bool :=
  negb (has_load_missing l) && negb (has_load_error l) &&
  match previous l with
  | Some prev => ne_int (Store.pid prev) pid
  | None => false
  end.

(** Lines 289-293: reload the previous state into the [Process] object. *)
Definition seed (l : load_result) (has_pid_changed : bool) (process : Process)
    : Process :=
  if negb (has_load_missing l) && negb (has_load_error l) && negb has_pid_changed then
    match previous l with
    | Some prev =>
        {| proc_pid := proc_pid process;
           _last_sys_cpu_times := timestamp prev;
           _last_proc_cpu_times :=
             Some {| pt_user := user prev;
                     pt_system := system prev;
                     pt_children_user := children_user prev;
                     pt_children_system := children_user prev;
                     pt_iowait := iowait prev |} |}
    | None => process
    end
  else process.

(** Lines 298-306: the sample read back from the [Process] object. *)
Definition parsed_sample (pid : Z) (process : Process) : M CpuTimesNamedTuple :=
  match _last_proc_cpu_times process with
  | Some pt =>
      mret {| Store.pid := PInt pid;
              timestamp := _last_sys_cpu_times process;
              user := pt_user pt;
              system := pt_system pt;
              children_user := pt_children_user pt;
              children_system := pt_children_system pt;
              iowait := pt_iowait pt |}
  | None =>
      raise (Exn AttributeError "'NoneType' object has no attribute 'user'")
  end.

Definition exc_class_name (e : option exn) : string :=
  match e with
  | Some e => class_name (exc_cls e)
  | None => "NoneType"
  end.

Definition exc_text (e : option exn) : string :=
  match e with
  | Some e => exc_str e
  | None => "None"
  end.

(** The three messages of lines 311, 313 and 315. *)
Definition first_run_message (buffer_file : string) (e : option exn) : string :=
  "First run, creating buffers at " +:+ buffer_file +:+ ": "
  +:+ exc_class_name e +:+ ": " +:+ exc_text e.

Definition corrupted_message (buffer_file : string) (e : option exn) : string :=
  "Buffer file at " +:+ buffer_file +:+ " was corrupted: "
  +:+ exc_class_name e +:+ ": " +:+ exc_text e.

Definition pid_changed_message (old : string) (pid : Z) : string :=
  "Process pid has changed from " +:+ old +:+ " to " +:+ pretty pid.

(** Lines 309-317: raise for a degraded load, or return the percentage. *)
Definition conclude (l : load_result) (has_pid_changed : bool) (pid : Z)
    (buffer_file : string) (cpu_pct : pyfloat) : M pyfloat :=
  if has_load_missing l then
    raise (Exn RuntimeError (first_run_message buffer_file (exc l)))
  else if has_load_error l then
    raise (Exn RuntimeError (corrupted_message buffer_file (exc l)))
  else if has_pid_changed then
    match previous l with
    | Some prev =>
        old ← lift (format_d (Store.pid prev));
        raise (Exn RuntimeError (pid_changed_message old pid))
    | None => raise (Exn AttributeError "'NoneType' object has no attribute 'pid'")
    end
  else mret cpu_pct.

(** The body of [get_pid_cpu_percent(pid, buffer_file)]. *)
Definition get_pid_cpu_percent_body (pid : Z) (buffer_file : string) : M pyfloat :=
  process ← psutil_Process pid;
  _ ← assert_ (is_running os pid) ("PID " +:+ pretty pid +:+ " is not running");
  l ← try_load buffer_file;
  let has_pid_changed := pid_changed l pid in
  let process := seed l has_pid_changed process in
  r ← cpu_percent process;
  parsed ← parsed_sample pid (snd r);
  _ ← save_to_disk parsed buffer_file;
  conclude l has_pid_changed pid buffer_file (fst r).

(** [@tb2unknown def get_pid_cpu_percent(pid, buffer_file)] *)
Definition get_pid_cpu_percent (pid : Z) (buffer_file : string) : M pyfloat :=
  tb2unknown "get_pid_cpu_percent" (get_pid_cpu_percent_body pid buffer_file).

(** ASCII whitespace, what [bytes.strip()] removes. *)
Definition is_space (c : ascii) : bool :=
  let n := nat_of_ascii c in
  Nat.eqb n 32 || ((9 <=? n)%nat && (n <=? 13)%nat).

Fixpoint lstrip (s : list ascii) : list ascii :=
  match s with
  | c :: s' => if is_space c then lstrip s' else s
  | [] => []
  end.

Definition strip (s : list ascii) : list ascii := rev (lstrip (rev (lstrip s))).

(** [bytes.isdigit()] *)
Definition isdigit (s : list ascii) : bool :=
  negb (Nat.eqb (length s) 0) && forallb Re.is_digit s.

(** [assert cond, message] where building the message can itself raise:
    the message is only evaluated when the condition is false. *)
Definition assert_msg (cond : bool) (message : exn + string) : M unit :=
  if cond then mret tt
  else
    match message with
    | inr text => raise (Exn AssertionError text)
    | inl e => raise e
    end.

(** The message of the first assertion: stdout is decoded before stderr. *)
Definition exit_code_message (stdout stderr : list ascii) : exn + string :=
  match decode_utf8 os stdout with
  | inl e => inl e
  | inr out =>
      match decode_utf8 os stderr with
      | inl e => inl e
      | inr err => inr ("Command return exit code != 0: output: " +:+ out +:+ " " +:+ err)
      end
  end.

(** The message of the second assertion. *)
Definition not_a_pid_message (stdout : list ascii) : exn + string :=
  match decode_utf8 os stdout with
  | inl e => inl e
  | inr out =>
      inr ("Command return stdout " +:+ out
           +:+ " that cannot be converter to PID (integer)")
  end.

(** The interpreter refuses to convert more than 640 digits when a limit is
    set and the digits, leading zeros included, are more than the limit. *)
Definition too_many_digits (n : nat) : bool :=
  (640 <? n)%nat && (0 <? int_max_str_digits os)%nat && (int_max_str_digits os <? n)%nat.

(** [int(b)] for bytes [b] that are decimal digits within ASCII white
    space, which the assertion before it has checked. *)
Definition int_bytes (b : list ascii) : exn + Z :=
  let ds := strip b in
  if too_many_digits (length ds) then
    inl (Exn ValueError
           ("Exceeds the limit (" +:+ pretty (int_max_str_digits os)
            +:+ " digits) for integer string conversion: value has "
            +:+ pretty (length ds)
            +:+ " digits; use sys.set_int_max_str_digits() to increase the limit"))
  else inr (digits_value ds).

(** The body of [get_pid_from_command(shell_command)]. *)
Definition get_pid_from_command_body (shell_command : string) : M Z :=
  r ← lift (run_shell os shell_command);
  let returncode := fst (fst r) in
  let stdout := snd (fst r) in
  let stderr := snd r in
  _ ← assert_msg (Z.eqb returncode 0) (exit_code_message stdout stderr);
  _ ← assert_msg (isdigit (strip stdout)) (not_a_pid_message stdout);
  lift (int_bytes stdout).

(** [@tb2unknown def get_pid_from_command(shell_command)] *)
Definition get_pid_from_command (shell_command : string) : M Z :=
  tb2unknown "get_pid_from_command" (get_pid_from_command_body shell_command).

(** What [argparse] makes of the command line: it calls
    [NagiosArgumentParser.error(message)], or returns the namespace. *)
Inductive cmdline :=
| BadArguments (message : string)
| Arguments (warning critical pid_cmd : string) (debug : bool).

Record Namespace := {
  ns_warning : string;
  ns_critical : string;
  ns_pid_cmd : string;
  ns_debug : bool;
}.

(** [parse_args()], with [NagiosArgumentParser.error]. *)
Definition parse_args (argv : cmdline) : M Namespace :=
  match argv with
  | BadArguments message =>
      _ ← print ("UNKNOWN: Bad arguments (see --help): " +:+ message);
      sys_exit 3
  | Arguments warning critical pid_cmd debug =>
      mret {| ns_warning := warning; ns_critical := critical;
              ns_pid_cmd := pid_cmd; ns_debug := debug |}
  end.

(** The truth value of an [Optional[str]]. *)
Definition truthy (o : option string) : bool :=
  match o with
  | Some s => negb (String.eqb s EmptyString)
  | None => false
  end.

Definition described (o : option string) : string :=
  match o with
  | Some s => s
  | None => "None"
  end.

(** Lines 347-364: [MESSAGE] and [CODE]. *)
Definition classify (CPU_PERCENT : pyfloat) (PID : Z)
    (THRESHOLD_WARNING THRESHOLD_CRITICAL : NagiosThreshold) : string * Z :=
  let OUTSIDE_THRESHOLD_WARNING :=
    is_outside_boundaries (str_float os) THRESHOLD_WARNING (NFloat CPU_PERCENT) in
  let OUTSIDE_THRESHOLD_CRITICAL :=
    is_outside_boundaries (str_float os) THRESHOLD_CRITICAL (NFloat CPU_PERCENT) in
  if truthy OUTSIDE_THRESHOLD_CRITICAL then
    ("CRITICAL: " +:+ fmt_0f os CPU_PERCENT +:+ "% CPU usage for PID " +:+ pretty PID
     +:+ " is outside critical limits (" +:+ described OUTSIDE_THRESHOLD_CRITICAL +:+ ")",
     2)
  else if truthy OUTSIDE_THRESHOLD_WARNING then
    ("WARNING: " +:+ fmt_1f os CPU_PERCENT +:+ "% CPU usage for PID " +:+ pretty PID
     +:+ " is outside warning limits (" +:+ described OUTSIDE_THRESHOLD_WARNING +:+ ")",
     1)
  else
    ("OK: " +:+ fmt_1f os CPU_PERCENT +:+ "% CPU usage for PID " +:+ pretty PID
     +:+ " is inside limits ("
     +:+ str_float os CPU_PERCENT
     +:+ (if inclusive THRESHOLD_WARNING then ">=" else ">")
     +:+ str_num (str_float os) (low_boundary THRESHOLD_WARNING)
     +:+ " and "
     +:+ str_float os CPU_PERCENT
     +:+ (if inclusive THRESHOLD_WARNING then "<=" else "<")
     +:+ str_num (str_float os) (high_boundary THRESHOLD_WARNING)
     +:+ ")",
     0).

(** Lines 335-345: [" ".join(PERFDATA)]. *)
Definition perfdata (CPU_PERCENT : pyfloat)
    (THRESHOLD_WARNING THRESHOLD_CRITICAL : NagiosThreshold) : string :=
  "cpu_percentage=" +:+ fmt_1f os CPU_PERCENT +:+ "%;"
  +:+ str_num (str_float os) (low_boundary THRESHOLD_WARNING) +:+ ".."
  +:+ str_num (str_float os) (high_boundary THRESHOLD_WARNING) +:+ ";"
  +:+ str_num (str_float os) (low_boundary THRESHOLD_CRITICAL) +:+ ".."
  +:+ str_num (str_float os) (high_boundary THRESHOLD_CRITICAL) +:+ ";0;"
  +:+ pretty (cpu_count os * 100).

(** Line 326: [BUFFER_PATH]. *)
Definition buffer_path (PID : Z) : string :=
  tempdir os +:+ "/" +:+ script_name os +:+ "_pid_" +:+ pretty PID +:+ ".json".

(** The [__main__] block. *)
Definition main (argv : cmdline) : M unit :=
  CONFIG ← parse_args argv;
  _ ← set_DEBUG (ns_debug CONFIG);
  PID ← get_pid_from_command (ns_pid_cmd CONFIG);
  let BUFFER_PATH := buffer_path PID in
  CPU_PERCENT ← get_pid_cpu_percent PID BUFFER_PATH;
  THRESHOLD_WARNING ← lift (init (ns_warning CONFIG));
  THRESHOLD_CRITICAL ← lift (init (ns_critical CONFIG));
  let mc := classify CPU_PERCENT PID THRESHOLD_WARNING THRESHOLD_CRITICAL in
  _ ← print (fst mc +:+ "|" +:+ perfdata CPU_PERCENT THRESHOLD_WARNING THRESHOLD_CRITICAL);
  sys_exit (snd mc).

(** *** Names for the states of one sampler run *)

(** Which of the four load conditions the flags stand for, in the order
    the final [if] statements test them. *)
Inductive condition := Missing | Corrupt | IdentityChanged | Loaded.

Definition condition_of (l : load_result) (pid : Z) : condition :=
  if has_load_missing l then Missing
  else if has_load_error l then Corrupt
  else if pid_changed l pid then IdentityChanged
  else Loaded.

(** The condition a run for [pid] finds at [buffer_file]. *)
Definition load_condition (buffer_file : string) (pid : Z) (w : World) : option condition :=
  match try_load buffer_file w with
  | (Return l, _) => Some (condition_of l pid)
  | _ => None
  end.

(** The [Process] object at the moment [cpu_percent()] is called. *)
Definition process_before_percent (buffer_file : string) (pid : Z) (w : World)
    : Process :=
  match try_load buffer_file w with
  | (Return l, _) => seed l (pid_changed l pid) (new_process pid)
  | _ => new_process pid
  end.

(** The sample built from a fresh reading of the counters. *)
Definition fresh_sample (pid : Z) (st2 : pyfloat) (pt2 : cpu_times)
    : CpuTimesNamedTuple :=
  {| Store.pid := PInt pid;
     timestamp := PFloat st2;
     user := PFloat (ct_user pt2);
     system := PFloat (ct_system pt2);
     children_user := PFloat (ct_children_user pt2);
     children_system := PFloat (ct_children_system pt2);
     iowait := PFloat (ct_iowait pt2) |}.

(** The world once [sample] has been written to [path]. *)
Definition persisted (path : string) (sample : CpuTimesNamedTuple) (w : World)
    : World :=
  {| files := <[path := JsonDoc (PDict (_asdict sample))]> (files w);
     write_denied := write_denied w;
     stdout := stdout w;
     DEBUG := DEBUG w |}.

End WithCollaborators.

End Probe.
Export Probe.

(* ===================================================================== *)
(** ** The percentage formula of the collaborator *)
(* ===================================================================== *)

Module SpecPercent.

(** Modelled from the spec: the body of psutil's [Process.cpu_percent] is
    not in the repository.  The specification (section 4.3, step 3) gives
    [percent = 100 * (delta user + delta system) / delta timestamp],
    normalized by the collaborator's own multi-core convention, here the
    parameter [normalize]; without a baseline the figure is the lifetime
    average.  Only finite numbers are covered; a baseline that is not made
    of numbers is a [TypeError]. *)
Definition spec_percent (normalize : Q -> Q)
    (st1 : pyval) (pt1 : option pcputimes) (st2 : pyfloat) (pt2 : cpu_times)
    : exn + pyfloat :=
  match st2, ct_user pt2, ct_system pt2 with
  | Fin t2, Fin u2, Fin s2 =>
      match st1, pt1 with
      | PNone, _ | _, None =>
          inr (Fin (normalize (100 * (u2 + s2) / t2)%Q))
      | PFloat (Fin t1), Some pt =>
          match pt_user pt, pt_system pt with
          | PFloat (Fin u1), PFloat (Fin s1) =>
              inr (Fin (normalize (100 * ((u2 - u1) + (s2 - s1)) / (t2 - t1))%Q))
          | _, _ => inl (Exn TypeError "unsupported operand type(s) for -")
          end
      | _, _ => inl (Exn TypeError "unsupported operand type(s) for -")
      end
  | _, _, _ => inl (Exn ValueError "counters are not finite")
  end.

(** The collaborators with that formula in place of [percent_of]. *)
Definition with_spec_percent (normalize : Q -> Q) (os : Collaborators)
    : Collaborators :=
  {| pid_exists := pid_exists os;
     is_running := is_running os;
     read_counters := read_counters os;
     percent_of := spec_percent normalize;
     cpu_count := cpu_count os;
     run_shell := run_shell os;
     decode_utf8 := decode_utf8 os;
     int_max_str_digits := int_max_str_digits os;
     str_float := str_float os;
     fmt_1f := fmt_1f os;
     fmt_0f := fmt_0f os;
     tempdir := tempdir os;
     script_name := script_name os |}.

End SpecPercent.
Export SpecPercent.

(* ===================================================================== *)
(** ** A concrete machine, for the examples *)
(* ===================================================================== *)

Module Scenario.

(** Process 42 is alive; the shell command prints its pid; the counters
    read now are those of the specification's end-to-end scenario at [t1];
    the percentage is the specification's formula with no rescaling.  The
    float renderings are placeholders: no result depends on them. *)
Definition counters_t0 : cpu_times :=
  {| ct_user := Fin (inject_Z 10);
     ct_system := Fin (inject_Z 5);
     ct_children_user := Fin (inject_Z 1);
     ct_children_system := Fin (inject_Z 2);
     ct_iowait := Fin (inject_Z 1) |}.

Definition counters_t1 : cpu_times :=
  {| ct_user := Fin (inject_Z 14);
     ct_system := Fin (inject_Z 6);
     ct_children_user := Fin (inject_Z 1);
     ct_children_system := Fin (inject_Z 2);
     ct_iowait := Fin (inject_Z 3) |}.

(** The UTF-8 codec as far as the texts of the model reach: one byte for a
    character below 128, the two bytes [C2 xx] or [C3 xx] for one below
    256.  Malformed bytes are refused; so is the encoding of a wider
    character, which no text of the model holds and no command of this
    machine prints. *)
Fixpoint decode_chars (b : list ascii) : option (list ascii) :=
  match b with
  | [] => Some []
  | c :: rest =>
      let n := nat_of_ascii c in
      if (n <? 128)%nat then option_map (cons c) (decode_chars rest)
      else if Nat.eqb n 194 || Nat.eqb n 195 then
        match rest with
        | d :: rest' =>
            let m := nat_of_ascii d in
            if (128 <=? m)%nat && (m <? 192)%nat then
              option_map (cons (ascii_of_nat ((n - 192) * 64 + (m - 128))))
                         (decode_chars rest')
            else None
        | [] => None
        end
      else None
  end.

Definition decode (b : list ascii) : exn + string :=
  match decode_chars b with
  | Some text => inr (string_of_list_ascii text)
  | None => inl (Exn UnicodeDecodeError "'utf-8' codec can't decode bytes")
  end.

Definition machine : Collaborators :=
  {| pid_exists := fun pid => Z.eqb pid 42;
     is_running := fun pid => Z.eqb pid 42;
     read_counters := fun _ => inr (Fin (inject_Z 110), counters_t1);
     percent_of := spec_percent (fun q => q);
     cpu_count := 4;
     run_shell := fun _ => inr (0, list_ascii_of_string "42", []);
     decode_utf8 := decode;
     int_max_str_digits := 4300;
     str_float := fun _ => "<float>";
     fmt_1f := fun _ => "<float>";
     fmt_0f := fun _ => "<float>";
     tempdir := "/tmp";
     script_name := "check_process_cpu_usage.py" |}.

Definition state_file : string := "/tmp/check_process_cpu_usage.py_pid_42.json".

(** Nothing on disk, nothing printed. *)
Definition first_boot : World :=
  {| files := ∅; write_denied := ∅; stdout := []; DEBUG := false |}.

(** The sample of an earlier run at [t0], ten time units before. *)
Definition sample_t0 : CpuTimesNamedTuple :=
  fresh_sample 42 (Fin (inject_Z 100)) counters_t0.

Definition after_t0 : World := persisted state_file sample_t0 first_boot.

(** A state file whose pid is the string ["42"] instead of the int. *)
Definition mistyped_pid : CpuTimesNamedTuple :=
  {| Store.pid := PStr "42";
     timestamp := timestamp sample_t0;
     user := user sample_t0;
     system := system sample_t0;
     children_user := children_user sample_t0;
     children_system := children_system sample_t0;
     iowait := iowait sample_t0 |}.

(** A state file with the right pid and a string for timestamp. *)
Definition mistyped_timestamp : CpuTimesNamedTuple :=
  {| Store.pid := PInt 42;
     timestamp := PStr "yesterday";
     user := user sample_t0;
     system := system sample_t0;
     children_user := children_user sample_t0;
     children_system := children_system sample_t0;
     iowait := iowait sample_t0 |}.

End Scenario.

(* ===================================================================== *)
(** ** The language of a regular expression *)
(* ===================================================================== *)

Module ReLang.
Import Re.

(** [matches r p]: the text [p], as a whole, is matched by [r]. *)
Inductive matches : regex -> list ascii -> Prop :=
| matches_chr c : matches (Chr c) [c]
| matches_digit c : is_digit c = true -> matches Digit [c]
| matches_cat r1 r2 p1 p2 :
    matches r1 p1 -> matches r2 p2 -> matches (Cat r1 r2) (p1 ++ p2)
| matches_alt_l r1 r2 p : matches r1 p -> matches (Alt r1 r2) p
| matches_alt_r r1 r2 p : matches r2 p -> matches (Alt r1 r2) p
| matches_opt_skip r : matches (Opt r) []
| matches_opt_take r p : matches r p -> matches (Opt r) p
| matches_plus_once r p : matches r p -> matches (Plus r) p
| matches_plus_more r p1 p2 :
    matches r p1 -> matches (Plus r) p2 -> matches (Plus r) (p1 ++ p2)
| matches_grp name r p : matches r p -> matches (Grp name r) p.

(** [groups_ok P g]: every text recorded in [g] satisfies [P] for the name
    it is recorded under. *)
Definition groups_ok (P : string -> list ascii -> Prop)
    (g : gmap string (list ascii)) : Prop :=
  forall name t, g !! name = Some t -> P name t.

(** [every_group P r]: for each named group inside [r], every text the
    group's body matches satisfies [P] for the group's name. *)
Fixpoint every_group (P : string -> list ascii -> Prop) (r : regex) : Prop :=
  match r with
  | Chr _ | Digit => True
  | Cat r1 r2 | Alt r1 r2 => every_group P r1 /\ every_group P r2
  | Opt r1 | Plus r1 => every_group P r1
  | Grp name r1 => (forall p, matches r1 p -> P name p) /\ every_group P r1
  end.

End ReLang.

(* ===================================================================== *)
(** ** Facts about the matcher *)
(* ===================================================================== *)

Module ReFacts.
Import Re.

(** [first_is x l]: the list [l] starts with [x]. *)
Definition first_is {A} (x : A) (l : list A) : Prop := exists tl, l = x :: tl.

Lemma first_is_app_l {A} (x : A) l l' : first_is x l -> first_is x (l ++ l').
Proof. intros [tl ->]. exists (tl ++ l'). reflexivity. Qed.

Lemma first_is_app_nil {A} (x : A) l l' :
  l = [] -> first_is x l' -> first_is x (l ++ l').
Proof. intros -> H. exact H. Qed.

Lemma first_is_map {A B} (f : A -> B) x l :
  first_is x l -> first_is (f x) (map f l).
Proof. intros [tl ->]. exists (map f tl). reflexivity. Qed.

Lemma first_is_flat_map {A B} (f : A -> list B) x y l :
  first_is x l -> first_is y (f x) -> first_is y (flat_map f l).
Proof.
  intros [tl ->] [tl' E]. simpl. rewrite E.
  exists (tl' ++ flat_map f tl). reflexivity.
Qed.

Lemma flat_map_all_nil {A B} (f : A -> list B) l :
  (forall x, In x l -> f x = []) -> flat_map f l = [].
Proof.
  induction l as [|a l IH]; intros H; simpl; [reflexivity|].
  rewrite (H a (or_introl eq_refl)), IH; [reflexivity|].
  intros x Hx. apply H. right. exact Hx.
Qed.

Lemma re_match_first r text st :
  first_is st (run r text ∅) -> re_match r text = Some (snd st).
Proof. intros [tl E]. unfold re_match. rewrite E. reflexivity. Qed.

(** What a match leaves is a suffix of what it was given. *)
Lemma repeat_suffix step :
  (forall s g st, In st (step s g) -> exists p, s = p ++ fst st) ->
  forall fuel s g st, In st (repeat_ step fuel s g) -> exists p, s = p ++ fst st.
Proof.
  intros Hstep fuel. induction fuel as [|fuel IH]; intros s g st Hin; simpl in Hin.
  - eapply Hstep; eauto.
  - apply in_flat_map in Hin as [st1 [H1 H2]].
    apply Hstep in H1 as [p1 ->].
    apply in_app_or in H2 as [H2|[<-|[]]].
    + apply IH in H2 as [p2 E]. exists (p1 ++ p2). rewrite E, app_assoc. reflexivity.
    + exists p1. reflexivity.
Qed.

Lemma run_suffix r :
  forall s g st, In st (run r s g) -> exists p, s = p ++ fst st.
Proof.
  induction r as [c| |r1 IH1 r2 IH2|r1 IH1 r2 IH2|r1 IH1|r1 IH1|name r1 IH1];
    intros s g st Hin; simpl in Hin.
  - destruct s as [|c' s']; [destruct Hin|].
    destruct (Ascii.eqb c c'); [|destruct Hin].
    destruct Hin as [<-|[]]. exists [c']. reflexivity.
  - destruct s as [|c' s']; [destruct Hin|].
    destruct (is_digit c'); [|destruct Hin].
    destruct Hin as [<-|[]]. exists [c']. reflexivity.
  - apply in_flat_map in Hin as [st1 [H1 H2]].
    apply IH1 in H1 as [p1 ->]. apply IH2 in H2 as [p2 E].
    exists (p1 ++ p2). rewrite E, app_assoc. reflexivity.
  - apply in_app_or in Hin as [H|H]; eauto.
  - apply in_app_or in Hin as [H|[<-|[]]]; eauto. exists []. reflexivity.
  - eapply repeat_suffix; eauto.
  - apply in_map_iff in Hin as [st1 [<- H1]]. simpl. eauto.
Qed.

(** A literal character that the text does not contain is never matched
    after a prefix of the text has been consumed. *)
Lemma cat_chr_absent r c s g :
  ~ In c s -> run (Cat r (Chr c)) s g = [].
Proof.
  intros Hc. simpl. apply flat_map_all_nil. intros st Hin.
  apply run_suffix in Hin as [p E].
  destruct (fst st) as [|c' s'] eqn:Est; [reflexivity|].
  destruct (Ascii.eqb_spec c c') as [<-|]; [|reflexivity].
  exfalso. apply Hc. rewrite E. apply in_or_app. right. left. reflexivity.
Qed.

(** The text a group records when it consumed [p]. *)
Lemma firstn_consumed {A} (p r : list A) :
  firstn (length (p ++ r) - length r) (p ++ r) = p.
Proof.
  rewrite length_app.
  replace (length p + length r - length r)%nat with (length p + 0)%nat by lia.
  rewrite firstn_app_2. simpl. apply app_nil_r.
Qed.

(** [stops s]: [\\d] does not match at the start of [s]. *)
Definition stops (s : list ascii) : Prop :=
  match s with
  | [] => True
  | c :: _ => is_digit c = false
  end.

Lemma run_digit_stops s g : stops s -> run Digit s g = [].
Proof. destruct s as [|c s]; simpl; [reflexivity|]. intros ->. reflexivity. Qed.

Lemma run_digit_takes c s g : is_digit c = true -> run Digit (c :: s) g = [(s, g)].
Proof. simpl. intros ->. reflexivity. Qed.

Section Greedy.

Variable step : list ascii -> groups -> list state.
Hypothesis step_stops : forall s g, stops s -> step s g = [].
Hypothesis step_takes : forall c s g, is_digit c = true -> step (c :: s) g = [(s, g)].

Lemma repeat_stops fuel s g : stops s -> repeat_ step fuel s g = [].
Proof.
  intros H. destruct fuel; simpl; rewrite (step_stops s g H); reflexivity.
Qed.

(** Greedy repetition first takes the whole run of digits. *)
Lemma repeat_first (ds : list ascii) :
  forall c rest g fuel,
    forallb is_digit (c :: ds) = true -> stops rest ->
    (length ds <= fuel)%nat ->
    first_is (rest, g) (repeat_ step fuel ((c :: ds) ++ rest) g).
Proof.
  induction ds as [|d ds IH]; intros c rest g fuel Hd Hs Hf;
    simpl in Hd; apply andb_true_iff in Hd as [Hc Hd].
  - destruct fuel; simpl; rewrite (step_takes _ _ _ Hc); simpl.
    + exists []. reflexivity.
    + rewrite (repeat_stops fuel rest g Hs). exists []. reflexivity.
  - destruct fuel as [|fuel]; [simpl in Hf; lia|].
    simpl. rewrite (step_takes _ _ _ Hc). simpl. rewrite app_nil_r.
    apply first_is_app_l.
    apply (IH d rest g fuel); [simpl; rewrite Hd; reflexivity|exact Hs|simpl in Hf; lia].
Qed.

End Greedy.

(** [\\d+] on a run of digits followed by something else. *)
Lemma run_plus_digit_first c ds rest g :
  forallb is_digit (c :: ds) = true -> stops rest ->
  first_is (rest, g) (run (Plus Digit) ((c :: ds) ++ rest) g).
Proof.
  intros Hd Hs.
  change (first_is (rest, g)
            (repeat_ (run Digit) (length ((c :: ds) ++ rest)) ((c :: ds) ++ rest) g)).
  apply (repeat_first (run Digit) run_digit_stops run_digit_takes); [exact Hd|exact Hs|].
  cbn [app length]. rewrite List.length_app. lia.
Qed.

Lemma run_plus_digit_stops s g : stops s -> run (Plus Digit) s g = [].
Proof.
  intros Hs. change (repeat_ (run Digit) (length s) s g = []).
  apply (repeat_stops (run Digit) run_digit_stops). exact Hs.
Qed.

End ReFacts.

(* ===================================================================== *)
(** ** Facts about NagiosThreshold *)
(* ===================================================================== *)

Module ThresholdFacts.
Import Re ReFacts Threshold.

Lemma digit_char_is_digit d : is_digit (digit_char d) = true.
Proof. destruct d; reflexivity. Qed.

Lemma digits_all_digits (l : list digit) : forallb is_digit (map digit_char l) = true.
Proof.
  induction l as [|d l IH]; simpl; [reflexivity|].
  rewrite IH. destruct d; reflexivity.
Qed.

Lemma digits_text_cons p :
  digits_text p = digit_char (first_digit p) :: map digit_char (more_digits p).
Proof. reflexivity. Qed.

Lemma colon_not_digits (l : list digit) : ~ In ":"%char (map digit_char l).
Proof.
  intros H. apply in_map_iff in H as [d [H _]]. destruct d; discriminate H.
Qed.

Lemma colon_not_in_literal n : ~ In ":"%char (literal_text n).
Proof.
  unfold literal_text. intros H. apply in_app_or in H as [H|H].
  - exact (colon_not_digits _ H).
  - destruct (fraction n) as [f|]; [|destruct H].
    destruct H as [H|H]; [discriminate H|exact (colon_not_digits _ H)].
Qed.

(** What may follow a number in a threshold text: the end or a colon. *)
Definition after_number (rest : list ascii) : Prop :=
  rest = [] \/ exists t, rest = ":"%char :: t.

Lemma after_number_stops rest : after_number rest -> stops rest.
Proof. intros [->|[t ->]]; simpl; auto. Qed.

Lemma after_number_no_dot rest g r : after_number rest -> run (Cat (Chr ".") r) rest g = [].
Proof. intros [->|[t ->]]; reflexivity. Qed.

(** The number pattern first takes the whole literal. *)
Lemma run_number_first n rest g :
  after_number rest ->
  first_is (rest, g) (run number (literal_text n ++ rest) g).
Proof.
  intros Hrest. unfold number, literal_text.
  change (run (Cat ?a ?b) ?s ?g0)
    with (flat_map (fun st : list ascii * gmap string (list ascii) =>
                      run b (fst st) (snd st)) (run a s g0)).
  destruct (fraction n) as [f|].
  - rewrite <- app_assoc. cbn [app].
    eapply first_is_flat_map.
    + rewrite digits_text_cons.
      apply (run_plus_digit_first _ _ ("."%char :: digits_text f ++ rest) g).
      * apply (digits_all_digits (digits_list (whole n))).
      * reflexivity.
    + cbn [fst snd].
      change (first_is (rest, g)
                ((run (Plus Digit) (digits_text f ++ rest) g ++ []) ++
                 [("."%char :: digits_text f ++ rest, g)])).
      apply first_is_app_l, first_is_app_l.
      rewrite digits_text_cons. apply run_plus_digit_first.
      * apply (digits_all_digits (digits_list f)).
      * apply after_number_stops, Hrest.
  - rewrite app_nil_r.
    eapply first_is_flat_map.
    + rewrite digits_text_cons. apply run_plus_digit_first.
      * apply (digits_all_digits (digits_list (whole n))).
      * apply after_number_stops, Hrest.
    + cbn [fst snd].
      change (first_is (rest, g)
                (run (Cat (Chr ".") (Plus Digit)) rest g ++ [(rest, g)])).
      rewrite after_number_no_dot by exact Hrest. exists []. reflexivity.
Qed.

(** A named group records the text it consumed. *)
Lemma run_grp_first name r p rest g g' :
  first_is (rest, g') (run r (p ++ rest) g) ->
  first_is (rest, <[name := p]> g') (run (Grp name r) (p ++ rest) g).
Proof.
  intros [tl E]. cbn [run]. rewrite E. cbn [map fst snd].
  rewrite firstn_consumed. eexists. reflexivity.
Qed.

(** [((?P<low_boundary>...)?:)] *)
Definition low_colon : regex :=
  Cat (Opt (Grp "low_boundary" (Alt number (Chr "~")))) (Chr ":").

(** [(?P<high_boundary>...)?] *)
Definition high_opt : regex := Opt (Grp "high_boundary" number).

Lemma pattern_eq :
  pattern = Cat (Grp "is_inclusive" (Opt (Chr "@"))) (Cat (Opt low_colon) high_opt).
Proof. reflexivity. Qed.

Lemma run_cat r1 r2 s g :
  run (Cat r1 r2) s g = flat_map (fun st => run r2 (fst st) (snd st)) (run r1 s g).
Proof. reflexivity. Qed.

Lemma run_opt r s g : run (Opt r) s g = run r s g ++ [(s, g)].
Proof. reflexivity. Qed.

Lemma run_alt r1 r2 s g : run (Alt r1 r2) s g = run r1 s g ++ run r2 s g.
Proof. reflexivity. Qed.

Lemma low_colon_number n more g :
  first_is (more, <["low_boundary" := literal_text n]> g)
           (run low_colon (literal_text n ++ ":"%char :: more) g).
Proof.
  unfold low_colon. rewrite run_cat.
  eapply first_is_flat_map.
  - rewrite run_opt. apply first_is_app_l. apply run_grp_first.
    rewrite run_alt. apply first_is_app_l. apply run_number_first.
    right. eexists. reflexivity.
  - cbn [fst snd]. exists []. reflexivity.
Qed.

Lemma low_colon_tilde more g :
  first_is (more, <["low_boundary" := ["~"%char]]> g)
           (run low_colon ("~"%char :: ":"%char :: more) g).
Proof.
  unfold low_colon. rewrite run_cat.
  eapply first_is_flat_map.
  - rewrite run_opt. apply first_is_app_l.
    apply (run_grp_first "low_boundary" _ ["~"%char] (":"%char :: more) g g).
    rewrite run_alt. apply first_is_app_nil.
    + unfold number. rewrite run_cat.
      rewrite (run_plus_digit_stops _ g); reflexivity.
    + exists []. reflexivity.
  - cbn [fst snd]. exists []. reflexivity.
Qed.

Lemma low_colon_absent n g : run low_colon (literal_text n) g = [].
Proof. apply cat_chr_absent, colon_not_in_literal. Qed.

Lemma high_opt_number m g :
  first_is ([], <["high_boundary" := literal_text m]> g)
           (run high_opt (literal_text m) g).
Proof.
  unfold high_opt. rewrite run_opt. apply first_is_app_l.
  pose proof (run_grp_first "high_boundary" number (literal_text m) [] g g) as H.
  rewrite app_nil_r in H. apply H.
  pose proof (run_number_first m [] g (or_introl eq_refl)) as H'.
  rewrite app_nil_r in H'. exact H'.
Qed.

Lemma high_opt_end g : run high_opt [] g = [([], g)].
Proof. reflexivity. Qed.

(** The groups the pattern records on each form. *)
Definition form_groups (f : form) (g : gmap string (list ascii))
    : gmap string (list ascii) :=
  match f with
  | Upto n => <["high_boundary" := literal_text n]> g
  | From n => <["low_boundary" := literal_text n]> g
  | TildeUpto n =>
      <["high_boundary" := literal_text n]> (<["low_boundary" := ["~"%char]]> g)
  | Between n m =>
      <["high_boundary" := literal_text m]> (<["low_boundary" := literal_text n]> g)
  end.

Lemma body_first f g :
  first_is ([], form_groups f g)
           (run (Cat (Opt low_colon) high_opt) (form_chars f) g).
Proof.
  rewrite run_cat. destruct f as [n|n|n|n m]; cbn [form_chars form_groups].
  - eapply first_is_flat_map.
    + rewrite run_opt, low_colon_absent. exists []. reflexivity.
    + apply high_opt_number.
  - eapply first_is_flat_map.
    + rewrite run_opt. apply first_is_app_l. apply low_colon_number.
    + rewrite high_opt_end. exists []. reflexivity.
  - eapply first_is_flat_map.
    + rewrite run_opt. apply first_is_app_l. apply low_colon_tilde.
    + apply high_opt_number.
  - eapply first_is_flat_map.
    + rewrite run_opt. apply first_is_app_l. apply low_colon_number.
    + apply high_opt_number.
Qed.

Lemma form_chars_head f :
  exists c t, form_chars f = c :: t /\ Ascii.eqb "@" c = false.
Proof.
  destruct f as [n|n|n|n m]; cbn [form_chars]; unfold literal_text;
    try rewrite digits_text_cons; cbn [app];
    eexists; eexists; (split; [reflexivity|]);
    try reflexivity; destruct (first_digit (whole n)); reflexivity.
Qed.

(** What [re.match] records on a text of the grammar. *)
Lemma pattern_first at_prefix f :
  re_match pattern (prefix_chars at_prefix ++ form_chars f) =
  Some (form_groups f (<["is_inclusive" := prefix_chars at_prefix]> ∅)).
Proof.
  rewrite pattern_eq.
  apply (re_match_first _ _
           ([], form_groups f (<["is_inclusive" := prefix_chars at_prefix]> ∅))).
  rewrite run_cat.
  apply (first_is_flat_map _
           (form_chars f, <["is_inclusive" := prefix_chars at_prefix]> ∅));
    [|apply body_first].
  apply run_grp_first. rewrite run_opt.
  destruct at_prefix.
  - exists [(["@"%char] ++ form_chars f, ∅)]. reflexivity.
  - destruct (form_chars_head f) as [c [t [E Hc]]].
    cbn [app prefix_chars]. rewrite E. cbn [run]. rewrite Hc. exists []. reflexivity.
Qed.

(** *** [float()] on a literal *)

Lemma span_digits_app (l : list digit) rest :
  stops rest -> span_digits (map digit_char l ++ rest) = (map digit_char l, rest).
Proof.
  intros Hs. induction l as [|d l IH]; cbn [map app].
  - destruct rest as [|c rest]; [reflexivity|]. simpl in Hs. simpl. rewrite Hs. reflexivity.
  - cbn [span_digits]. rewrite digit_char_is_digit, IH. reflexivity.
Qed.

Lemma digits_value_fold (l : list digit) acc :
  fold_left (fun a c => 10 * a + (Z.of_nat (nat_of_ascii c) - 48)) (map digit_char l) acc =
  fold_left (fun a d => 10 * a + digit_val d) l acc.
Proof.
  revert acc. induction l as [|d l IH]; intros acc; cbn [map fold_left]; [reflexivity|].
  rewrite IH. f_equal. destruct d; reflexivity.
Qed.

Lemma digits_value_text p : digits_value (digits_text p) = digits_val p.
Proof. apply digits_value_fold. Qed.

Lemma span_digits_text p rest :
  stops rest -> span_digits (digits_text p ++ rest) = (digits_text p, rest).
Proof. apply span_digits_app. Qed.

Lemma py_float_literal n : py_float (literal_text n) = inr (literal_value n).
Proof.
  unfold py_float, literal_text, literal_value.
  destruct (fraction n) as [f|].
  - rewrite span_digits_text by reflexivity. cbn [fst snd].
    rewrite <- (digits_value_text (whole n)), <- (digits_value_text f).
    replace (length (digits_list f)) with (length (digits_text f))
      by (unfold digits_text; apply length_map).
    pose proof (digits_all_digits (digits_list f)) as Hall.
    fold (digits_text f) in Hall.
    pose proof (digits_text_cons (whole n)) as Ew.
    pose proof (digits_text_cons f) as Ef.
    destruct (digits_text (whole n)) as [|cw lw]; [discriminate Ew|].
    destruct (digits_text f) as [|cf lf]; [discriminate Ef|].
    rewrite Hall. reflexivity.
  - rewrite app_nil_r.
    pose proof (span_digits_text (whole n) [] I) as E. rewrite app_nil_r in E.
    rewrite E. cbn [fst snd].
    rewrite <- (digits_value_text (whole n)).
    pose proof (digits_text_cons (whole n)) as Ew.
    destruct (digits_text (whole n)) as [|cw lw]; [discriminate Ew|].
    reflexivity.
Qed.

Lemma literal_not_tilde n : String.eqb (string_of_list_ascii (literal_text n)) "~" = false.
Proof.
  unfold literal_text. rewrite digits_text_cons. cbn [app string_of_list_ascii].
  destruct (first_digit (whole n)); reflexivity.
Qed.

Lemma form_text_nonempty at_prefix f : String.eqb (form_text at_prefix f) EmptyString = false.
Proof.
  unfold form_text. destruct (form_chars_head f) as [c [t [E _]]]. rewrite E.
  destruct at_prefix; reflexivity.
Qed.

(** [__init__] on a text of the grammar. *)
Lemma init_form at_prefix f :
  init (form_text at_prefix f) =
  inr {| inclusive := at_prefix; low_boundary := form_low f; high_boundary := form_high f |}.
Proof.
  unfold init. rewrite form_text_nonempty.
  unfold form_text. rewrite list_ascii_of_string_of_list_ascii, pattern_first.
  assert (Hincl : forall g : gmap string (list ascii),
             group_truthy (form_groups f (<["is_inclusive" := prefix_chars at_prefix]> g))
                          "is_inclusive" = at_prefix).
  { intros g. unfold group_truthy.
    destruct f; cbn [form_groups]; repeat (rewrite lookup_insert_ne by discriminate);
      rewrite lookup_insert_eq; destruct at_prefix; reflexivity. }
  rewrite Hincl.
  destruct f as [n|n|n|n m]; cbn [form_groups form_low form_high].
  - rewrite lookup_insert_ne by discriminate. rewrite lookup_insert_ne by discriminate.
    rewrite lookup_empty, lookup_insert_eq, py_float_literal. reflexivity.
  - rewrite lookup_insert_eq, literal_not_tilde, py_float_literal.
    rewrite lookup_insert_ne by discriminate. rewrite lookup_insert_ne by discriminate.
    rewrite lookup_empty. reflexivity.
  - rewrite lookup_insert_ne by discriminate. rewrite lookup_insert_eq.
    change (String.eqb (string_of_list_ascii ["~"%char]) "~") with true. cbn iota.
    rewrite lookup_insert_eq, py_float_literal. reflexivity.
  - rewrite lookup_insert_ne by discriminate.
    rewrite lookup_insert_eq, literal_not_tilde, py_float_literal.
    rewrite lookup_insert_eq, py_float_literal. reflexivity.
Qed.

End ThresholdFacts.

(* ===================================================================== *)
(** ** Facts about the conversion to float *)
(* ===================================================================== *)

Module FloatFacts.
Import Re Threshold.

(** Rounding never gives NaN. *)
Lemma round_to_double_not_nan A B : round_to_double A B <> NaN.
Proof.
  unfold round_to_double. destruct (Z.eqb A 0); [discriminate|]. cbv zeta.
  match goal with |- (if ?c then _ else _) <> _ => destruct c; discriminate end.
Qed.

(** Rounding a quotient that is not negative gives no negative float. *)
Lemma round_to_double_nonneg A B : 0 <= A -> nonneg_float (round_to_double A B).
Proof.
  intros HA. unfold round_to_double.
  destruct (Z.eqb A 0); [right; exists (inject_Z 0); split; [reflexivity|discriminate]|].
  cbv zeta.
  set (e := Z.max _ (-1074)).
  set (num := if Z.leb 0 e then A else A * 2 ^ (- e)).
  set (den := if Z.leb 0 e then Z.pos B * 2 ^ e else Z.pos B).
  set (m := if _ : bool then num / den + 1 else num / den).
  assert (Hnum : 0 <= num).
  { unfold num. destruct (Z.leb 0 e); [exact HA|]. apply Z.mul_nonneg_nonneg; [exact HA|].
    apply Z.pow_nonneg. lia. }
  assert (Hden : 0 < den).
  { unfold den. destruct (Z.leb_spec 0 e); [|lia].
    apply Z.mul_pos_pos; [lia|]. apply Z.pow_pos_nonneg; lia. }
  assert (Hm : 0 <= m).
  { pose proof (Z.div_pos num den Hnum Hden). unfold m.
    match goal with |- 0 <= (if ?c then _ else _) => destruct c end; lia. }
  match goal with |- nonneg_float (if ?c then _ else _) => destruct c end;
    [left; reflexivity|].
  right. eexists. split; [reflexivity|]. rewrite Qred_correct.
  destruct (Z.leb 0 e).
  - unfold Qle, inject_Z. cbn [Qnum Qden].
    assert (0 <= m * 2 ^ e) by (apply Z.mul_nonneg_nonneg; [exact Hm|apply Z.pow_nonneg; lia]).
    lia.
  - unfold Qle. cbn [Qnum Qden]. lia.
Qed.

(** [float("0.3")] is the double nearest to three tenths, not three
    tenths; a number of 400 digits is beyond the largest double. *)
Example float_of_three_tenths :
  py_float (list_ascii_of_string "0.3") =
    inr (Fin (5404319552844595 # 18014398509481984)).
Proof. vm_compute. reflexivity. Qed.

Example float_of_400_digits : py_float (repeat "9"%char 400) = inr PosInf.
Proof. vm_compute. reflexivity. Qed.

(** [float()] never gives NaN on the texts the pattern captures. *)
Lemma py_float_not_nan t x : py_float t = inr x -> x <> NaN.
Proof.
  unfold py_float. intros H.
  destruct (fst (span_digits t)) as [|c ip]; [discriminate|].
  destruct (snd (span_digits t)) as [|d fp].
  - inversion H. apply round_to_double_not_nan.
  - match type of H with (if ?c then _ else _) = _ => destruct c end; [|discriminate].
    inversion H. apply round_to_double_not_nan.
Qed.

(** No boundary of a threshold that [__init__] builds is NaN. *)
Lemma init_not_nan raw th :
  init raw = inr th ->
  to_float (low_boundary th) <> NaN /\ to_float (high_boundary th) <> NaN.
Proof.
  unfold init. intros H.
  destruct (String.eqb raw EmptyString); [discriminate|].
  destruct (re_match pattern (list_ascii_of_string raw)) as [m|]; [|discriminate].
  assert (Hlow : forall l,
             match m !! "low_boundary" with
             | None => inr (NInt 0)
             | Some text =>
                 if String.eqb (string_of_list_ascii text) "~"
                 then inr (NFloat NegInf)
                 else match py_float text with
                      | inr x => inr (NFloat x)
                      | inl e => inl e
                      end
             end = @inr exn pynum l -> to_float l <> NaN).
  { intros l Hl. destruct (m !! "low_boundary") as [t|].
    - destruct (String.eqb (string_of_list_ascii t) "~").
      + inversion Hl. discriminate.
      + destruct (py_float t) as [e|x] eqn:E; [discriminate|].
        inversion Hl. exact (py_float_not_nan t x E).
    - inversion Hl. discriminate. }
  match type of H with
  | match ?low with _ => _ end = _ => destruct low as [e|l] eqn:El; [discriminate|]
  end.
  assert (Hhigh : forall h,
             match m !! "high_boundary" with
             | Some text => py_float text
             | None => inr PosInf
             end = inr h -> h <> NaN).
  { intros h Hh. destruct (m !! "high_boundary") as [t|].
    - exact (py_float_not_nan t h Hh).
    - inversion Hh. discriminate. }
  match type of H with
  | match ?high with _ => _ end = _ => destruct high as [e|h] eqn:Eh; [discriminate|]
  end.
  inversion H. cbn. split; [exact (Hlow l eq_refl)|exact (Hhigh h eq_refl)].
Qed.

End FloatFacts.

(* ===================================================================== *)
(** ** Thresholds: parsing, evaluation, classification *)
(* ===================================================================== *)

Module ThresholdClaims.
Import Re ReFacts Threshold ThresholdFacts.

Lemma flt_spec a b : flt a b = true <-> float_lt a b.
Proof.
  destruct a as [| |x|], b as [| |y|]; simpl; try tauto;
    try (split; [discriminate|tauto]).
  rewrite negb_true_iff. split.
  - intros H. apply Qnot_le_lt. intros Hle. apply Qle_bool_iff in Hle. congruence.
  - intros H. destruct (Qle_bool y x) eqn:E; [|reflexivity].
    apply Qle_bool_iff in E. exfalso. exact (Qlt_not_le _ _ H E).
Qed.

Lemma fle_spec a b : fle a b = true <-> float_le a b.
Proof.
  destruct a as [| |x|], b as [| |y|]; simpl; try tauto;
    try (split; [discriminate|tauto]).
  apply Qle_bool_iff.
Qed.

(** Away from NaN the order is total. *)
Lemma flt_negb_fle a b : a <> NaN -> b <> NaN -> flt a b = negb (fle b a).
Proof. destruct a, b; intros Ha Hb; try reflexivity; congruence. Qed.

Lemma num_lt_spec a b : num_lt a b = true <-> lt a b.
Proof. apply flt_spec. Qed.

Lemma num_le_spec a b : num_le a b = true <-> le a b.
Proof. apply fle_spec. Qed.

Lemma num_lt_false a b :
  to_float a <> NaN -> to_float b <> NaN -> (num_lt a b = false <-> le b a).
Proof.
  intros Ha Hb. unfold num_lt, le.
  rewrite (flt_negb_fle _ _ Ha Hb), negb_false_iff. apply fle_spec.
Qed.

Lemma num_le_false a b :
  to_float a <> NaN -> to_float b <> NaN -> (num_le a b = false <-> lt b a).
Proof.
  intros Ha Hb. unfold num_le, lt.
  rewrite <- flt_spec, (flt_negb_fle _ _ Hb Ha), negb_true_iff. reflexivity.
Qed.

(** When [is_outside_boundaries] reports a violation. *)
Lemma outside_iff str_float th v :
  is_outside_boundaries str_float th v <> None <->
  if inclusive th then lt v (low_boundary th) \/ lt (high_boundary th) v
  else le v (low_boundary th) \/ le (high_boundary th) v.
Proof.
  unfold is_outside_boundaries, num_gt, num_ge.
  destruct (inclusive th).
  - rewrite <- !num_lt_spec.
    destruct (num_lt v (low_boundary th)), (num_lt (high_boundary th) v);
      split; intros H; try discriminate; auto; try (exfalso; apply H; reflexivity);
      destruct H; discriminate.
  - rewrite <- !num_le_spec.
    destruct (num_le v (low_boundary th)), (num_le (high_boundary th) v);
      split; intros H; try discriminate; auto; try (exfalso; apply H; reflexivity);
      destruct H; discriminate.
Qed.

(** C2.  Parsing a threshold text of one of the four forms [N], [N:],
    [~:N], [N:M], with or without the [@] prefix, succeeds and gives the
    grammar's boundaries (low [0] when absent, minus infinity for [~], high
    plus infinity when absent, and for a written number the float it
    denotes) and [inclusive] exactly for the prefix.
    Evaluating a number [v] then reports a violation exactly when
    [v < low] or [v > high] with the prefix, described with [<] and [>],
    and exactly when [v <= low] or [v >= high] without it, described with
    [<=] and [>=]; otherwise it reports none. *)
Theorem threshold_forms_semantics (str_float : pyfloat -> string)
    (at_prefix : bool) (f : form) (v : pynum) :
  exists th,
    init (form_text at_prefix f) = inr th /\
    inclusive th = at_prefix /\
    low_boundary th = form_low f /\
    high_boundary th = form_high f /\
    is_outside_boundaries str_float th v =
      (if at_prefix then
         if num_lt v (form_low f) then
           Some (str_num str_float v +:+ "<" +:+ str_num str_float (form_low f))
         else if num_lt (form_high f) v then
           Some (str_num str_float v +:+ ">" +:+ str_num str_float (form_high f))
         else None
       else
         if num_le v (form_low f) then
           Some (str_num str_float v +:+ "<=" +:+ str_num str_float (form_low f))
         else if num_le (form_high f) v then
           Some (str_num str_float v +:+ ">=" +:+ str_num str_float (form_high f))
         else None) /\
    (is_outside_boundaries str_float th v <> None <->
     if at_prefix then lt v (form_low f) \/ lt (form_high f) v
     else le v (form_low f) \/ le (form_high f) v).
Proof.
  eexists. split; [apply init_form|].
  split; [reflexivity|]. split; [reflexivity|]. split; [reflexivity|].
  split; [reflexivity|].
  apply (outside_iff str_float
           {| inclusive := at_prefix; low_boundary := form_low f;
              high_boundary := form_high f |} v).
Qed.

(** The boundary of ["0.3"] is the double that the float literal [0.3]
    denotes: that value is on the boundary, an alert without [@] and none
    with it. *)
Example value_on_rounded_boundary (str_float : pyfloat -> string) :
  exists th th',
    init "0.3" = inr th /\ init "@0.3" = inr th' /\
    is_outside_boundaries str_float th
      (NFloat (Fin (5404319552844595 # 18014398509481984))) =
      Some (str_float (Fin (5404319552844595 # 18014398509481984)) +:+ ">="
            +:+ str_float (Fin (5404319552844595 # 18014398509481984))) /\
    is_outside_boundaries str_float th'
      (NFloat (Fin (5404319552844595 # 18014398509481984))) = None.
Proof.
  eexists. eexists. split; [vm_compute; reflexivity|].
  split; [vm_compute; reflexivity|]. split; reflexivity.
Qed.

(** C4, what the code does.  The empty text is refused by the first
    assertion, but texts outside the grammar are accepted: the pattern has
    no end anchor and every part of it is optional, so ["abc"] and [":"]
    build the default range [(0, +inf)] and ["10:20:30"] builds
    [(10, 20)]. *)
Theorem init_accepts_text_outside_grammar :
  init EmptyString = inl (Exn AssertionError "raw parameter must be a non-empty string") /\
  init "abc" = inr {| inclusive := false; low_boundary := NInt 0;
                      high_boundary := NFloat PosInf |} /\
  init ":" = inr {| inclusive := false; low_boundary := NInt 0;
                    high_boundary := NFloat PosInf |} /\
  init "10:20:30" = inr {| inclusive := false;
                           low_boundary := NFloat (Fin (inject_Z 10));
                           high_boundary := NFloat (Fin (inject_Z 20)) |}.
Proof. repeat split; vm_compute; reflexivity. Qed.

(** A violation description is never the empty string, so the truth value
    the script tests is that of "there is a violation". *)
Lemma append_op_nonempty a op b :
  op <> EmptyString -> String.eqb (a +:+ op +:+ b) EmptyString = false.
Proof.
  intros Hop. destruct a as [|c a]; [|reflexivity]. simpl.
  destruct op as [|c op]; [congruence|reflexivity].
Qed.

Lemma truthy_outside str_float th v :
  truthy (is_outside_boundaries str_float th v) =
  match is_outside_boundaries str_float th v with
  | Some _ => true
  | None => false
  end.
Proof.
  unfold is_outside_boundaries, truthy.
  destruct (inclusive th);
    repeat match goal with
           | |- context [if ?b then _ else _] => destruct b
           end;
    try reflexivity; rewrite append_op_nonempty; try reflexivity; discriminate.
Qed.

(** The three cases of lines 347-364.  The critical range is looked at
    first: when it is violated the result is the CRITICAL message with code
    2, whatever the warning range says; otherwise a violated warning range
    gives the WARNING message with code 1; otherwise the result is the OK
    message with code 0, whose explanation states the two comparisons that
    place the value inside the warning range's valid interval, and, NaN
    apart, those comparisons hold. *)
Lemma classify_cases (os : Collaborators) (percent : pyfloat) (PID : Z)
    (warning critical : NagiosThreshold) :
  match is_outside_boundaries (str_float os) critical (NFloat percent),
        is_outside_boundaries (str_float os) warning (NFloat percent) with
  | Some why, _ =>
      classify os percent PID warning critical =
        ("CRITICAL: " +:+ fmt_0f os percent +:+ "% CPU usage for PID " +:+ pretty PID
         +:+ " is outside critical limits (" +:+ why +:+ ")", 2)
  | None, Some why =>
      classify os percent PID warning critical =
        ("WARNING: " +:+ fmt_1f os percent +:+ "% CPU usage for PID " +:+ pretty PID
         +:+ " is outside warning limits (" +:+ why +:+ ")", 1)
  | None, None =>
      classify os percent PID warning critical =
        ("OK: " +:+ fmt_1f os percent +:+ "% CPU usage for PID " +:+ pretty PID
         +:+ " is inside limits ("
         +:+ str_float os percent +:+ (if inclusive warning then ">=" else ">")
         +:+ str_num (str_float os) (low_boundary warning)
         +:+ " and "
         +:+ str_float os percent +:+ (if inclusive warning then "<=" else "<")
         +:+ str_num (str_float os) (high_boundary warning) +:+ ")", 0) /\
      (percent <> NaN ->
       to_float (low_boundary warning) <> NaN ->
       to_float (high_boundary warning) <> NaN ->
       if inclusive warning
       then le (low_boundary warning) (NFloat percent) /\
            le (NFloat percent) (high_boundary warning)
       else lt (low_boundary warning) (NFloat percent) /\
            lt (NFloat percent) (high_boundary warning))
  end.
Proof.
  unfold classify. rewrite !truthy_outside.
  destruct (is_outside_boundaries (str_float os) critical (NFloat percent)) as [c|] eqn:Ec;
    [reflexivity|].
  destruct (is_outside_boundaries (str_float os) warning (NFloat percent)) as [w|] eqn:Ew;
    [reflexivity|].
  split; [reflexivity|]. intros Hp Hl Hh.
  unfold is_outside_boundaries, num_gt, num_ge in Ew.
  destruct (inclusive warning).
  - destruct (num_lt (NFloat percent) (low_boundary warning)) eqn:E1; [discriminate|].
    destruct (num_lt (high_boundary warning) (NFloat percent)) eqn:E2; [discriminate|].
    split; [apply (num_lt_false (NFloat percent) _ Hp Hl)
           |apply (num_lt_false _ (NFloat percent) Hh Hp)]; assumption.
  - destruct (num_le (NFloat percent) (low_boundary warning)) eqn:E1; [discriminate|].
    destruct (num_le (high_boundary warning) (NFloat percent)) eqn:E2; [discriminate|].
    split; [apply (num_le_false (NFloat percent) _ Hp Hl)
           |apply (num_le_false _ (NFloat percent) Hh Hp)]; assumption.
Qed.

End ThresholdClaims.

(* ===================================================================== *)
(** ** The state file *)
(* ===================================================================== *)

Module StoreFacts.

(** Keyword construction undoes [_asdict]. *)
Lemma from_kwargs_asdict self : from_kwargs (_asdict self) = inr self.
Proof. destruct self. vm_compute. reflexivity. Qed.

Lemma load_persisted path sample w :
  load_from_disk path (persisted path sample w) = (Return sample, persisted path sample w).
Proof.
  unfold load_from_disk, persisted. cbn [files].
  rewrite lookup_insert_eq, from_kwargs_asdict. reflexivity.
Qed.

(** [save_to_disk] either writes the file or, refused, prints the UNKNOWN
    line and raises or exits according to [DEBUG]. *)
Lemma save_to_disk_run self path w :
  save_to_disk self path w =
  if bool_decide (path ∈ write_denied w) then
    let e := Exn PermissionError ("[Errno 13] Permission denied: '" +:+ path +:+ "'") in
    let w' := snd (print ("UNKNOWN: Got exception while running save_to_disk: "
                          +:+ class_name (exc_cls e) +:+ ": " +:+ exc_str e) w) in
    (if DEBUG w then Raise e else SysExit 3, w')
  else (Return tt, persisted path self w).
Proof.
  unfold save_to_disk, tb2unknown, save_to_disk_body.
  destruct (bool_decide (path ∈ write_denied w)); [|reflexivity].
  cbn. destruct (DEBUG w); reflexivity.
Qed.




End StoreFacts.

(* ===================================================================== *)
(** ** The sampler *)
(* ===================================================================== *)

Module ProbeFacts.
Import StoreFacts.

(** Loading reads the world and leaves it as it is. *)
Lemma load_from_disk_world path w : snd (load_from_disk path w) = w.
Proof.
  unfold load_from_disk.
  destruct (files w !! path) as [[|text|[]]|]; try reflexivity.
  unfold lift. destruct (from_kwargs d); reflexivity.
Qed.

Lemma load_from_disk_no_exit path w c : fst (load_from_disk path w) <> SysExit c.
Proof.
  unfold load_from_disk.
  destruct (files w !! path) as [[|text|[]]|]; try discriminate.
  unfold lift. destruct (from_kwargs d); discriminate.
Qed.

(** The [try] statement always falls through to the code after it. *)
Lemma try_load_returns path w : exists l, try_load path w = (Return l, w).
Proof.
  unfold try_load.
  pose proof (load_from_disk_world path w) as Hw.
  pose proof (load_from_disk_no_exit path w) as Hx.
  destruct (load_from_disk path w) as [[prev|e|c] w']; cbn in Hw; subst w'.
  - eexists. reflexivity.
  - destruct (is_FileNotFoundError e); eexists; reflexivity.
  - exfalso. exact (Hx c eq_refl).
Qed.

Lemma seed_pid l changed p : proc_pid (seed l changed p) = proc_pid p.
Proof.
  unfold seed.
  destruct (negb (has_load_missing l) && negb (has_load_error l) && negb changed);
    [|reflexivity].
  destruct (previous l); reflexivity.
Qed.

(** One run of the body, when the process is there and the counters and
    the percentage are obtained: the fresh sample is saved, and only then
    is the load condition turned into an error or the percentage. *)
Lemma body_run os pid bf w st2 pt2 pct l :
  pid_exists os pid = true ->
  is_running os pid = true ->
  read_counters os pid = inr (st2, pt2) ->
  try_load bf w = (Return l, w) ->
  percent_of os (_last_sys_cpu_times (seed l (pid_changed l pid) (new_process pid)))
                (_last_proc_cpu_times (seed l (pid_changed l pid) (new_process pid)))
                st2 pt2 = inr pct ->
  get_pid_cpu_percent_body os pid bf w =
    match save_to_disk (fresh_sample pid st2 pt2) bf w with
    | (Return _, w') => conclude l (pid_changed l pid) pid bf pct w'
    | (Raise e, w') => (Raise e, w')
    | (SysExit c, w') => (SysExit c, w')
    end.
Proof.
  intros Hex Hrun Hread Hload Hpct.
  unfold get_pid_cpu_percent_body, mbind, M_bind, bind, psutil_Process, assert_.
  rewrite Hex, Hrun. cbn [mret M_ret ret]. rewrite Hload.
  unfold cpu_percent. rewrite seed_pid. cbn [proc_pid new_process].
  rewrite Hread, Hpct. cbn [mret M_ret ret snd fst].
  unfold parsed_sample. cbn [_last_proc_cpu_times _last_sys_cpu_times mret M_ret ret].
  reflexivity.
Qed.

End ProbeFacts.
Module LoadFacts.
Import StoreFacts ProbeFacts.

Ltac in_fields := unfold _fields; repeat constructor.

Lemma fields_in_dom (d : gmap string pyval) k :
  dom d = list_to_set _fields -> k ∈ _fields -> is_Some (d !! k).
Proof.
  intros Hdom Hk. apply elem_of_dom. rewrite Hdom. apply elem_of_list_to_set. exact Hk.
Qed.

(** A dict whose keys are exactly the seven field names builds the tuple
    holding its values, whatever they are. *)
Lemma from_kwargs_exact d :
  dom d = list_to_set _fields ->
  exists prev, from_kwargs d = inr prev /\ d = _asdict prev.
Proof.
  intros Hdom. unfold from_kwargs.
  rewrite bool_decide_eq_true_2 by (rewrite Hdom; reflexivity). cbn [negb].
  destruct (fields_in_dom d "pid" Hdom ltac:(in_fields)) as [p Hp].
  destruct (fields_in_dom d "timestamp" Hdom ltac:(in_fields)) as [t Ht].
  destruct (fields_in_dom d "user" Hdom ltac:(in_fields)) as [u Hu].
  destruct (fields_in_dom d "system" Hdom ltac:(in_fields)) as [s Hs].
  destruct (fields_in_dom d "children_user" Hdom ltac:(in_fields)) as [cu Hcu].
  destruct (fields_in_dom d "children_system" Hdom ltac:(in_fields)) as [cs Hcs].
  destruct (fields_in_dom d "iowait" Hdom ltac:(in_fields)) as [io Hio].
  rewrite Hp, Ht, Hu, Hs, Hcu, Hcs, Hio.
  eexists. split; [reflexivity|].
  apply map_eq. intros k. unfold _asdict. cbn [Store.pid timestamp user system
    children_user children_system iowait].
  destruct (decide (k = "pid")) as [->|N1]; [rewrite lookup_insert_eq; exact Hp|].
  rewrite lookup_insert_ne by congruence.
  destruct (decide (k = "timestamp")) as [->|N2]; [rewrite lookup_insert_eq; exact Ht|].
  rewrite lookup_insert_ne by congruence.
  destruct (decide (k = "user")) as [->|N3]; [rewrite lookup_insert_eq; exact Hu|].
  rewrite lookup_insert_ne by congruence.
  destruct (decide (k = "system")) as [->|N4]; [rewrite lookup_insert_eq; exact Hs|].
  rewrite lookup_insert_ne by congruence.
  destruct (decide (k = "children_user")) as [->|N5]; [rewrite lookup_insert_eq; exact Hcu|].
  rewrite lookup_insert_ne by congruence.
  destruct (decide (k = "children_system")) as [->|N6]; [rewrite lookup_insert_eq; exact Hcs|].
  rewrite lookup_insert_ne by congruence.
  destruct (decide (k = "iowait")) as [->|N7]; [rewrite lookup_insert_eq; exact Hio|].
  rewrite lookup_insert_ne by congruence.
  rewrite lookup_empty. apply not_elem_of_dom. rewrite Hdom.
  intros Hk. apply elem_of_list_to_set in Hk. unfold _fields in Hk.
  repeat (apply elem_of_cons in Hk as [->|Hk]; [congruence|]).
  apply elem_of_nil in Hk. exact Hk.
Qed.

(** Any other dict, one with a key missing or a key too many, is a
    [TypeError]. *)
Lemma from_kwargs_inexact d :
  dom d <> list_to_set _fields ->
  exists e, from_kwargs d = inl e /\ exc_cls e = TypeError.
Proof.
  intros Hdom. unfold from_kwargs.
  destruct (bool_decide (dom d ⊆ list_to_set _fields)) eqn:Hsub; cbn [negb];
    [|eexists; split; reflexivity].
  apply bool_decide_eq_true_1 in Hsub.
  destruct (d !! "pid") as [p|] eqn:Hp; [|eexists; split; reflexivity].
  destruct (d !! "timestamp") as [t|] eqn:Ht; [|eexists; split; reflexivity].
  destruct (d !! "user") as [u|] eqn:Hu; [|eexists; split; reflexivity].
  destruct (d !! "system") as [s|] eqn:Hs; [|eexists; split; reflexivity].
  destruct (d !! "children_user") as [cu|] eqn:Hcu; [|eexists; split; reflexivity].
  destruct (d !! "children_system") as [cs|] eqn:Hcs; [|eexists; split; reflexivity].
  destruct (d !! "iowait") as [io|] eqn:Hio; [|eexists; split; reflexivity].
  exfalso. apply Hdom. apply set_eq. intros k. split; [apply Hsub|].
  intros Hk. apply elem_of_dom. unfold _fields in Hk.
  apply elem_of_list_to_set in Hk.
  repeat (apply elem_of_cons in Hk as [->|Hk]; [eauto|]).
  apply elem_of_nil in Hk. destruct Hk.
Qed.

End LoadFacts.

(* ===================================================================== *)
(** ** The [__main__] block *)
(* ===================================================================== *)

Module MainFacts.
Import Threshold.

(** The world after [DEBUG = CONFIG.debug]. *)
Lemma main_unfold os W C P dbg w :
  main os (Arguments W C P dbg) w =
    match get_pid_from_command os P
            {| files := files w; write_denied := write_denied w;
               stdout := stdout w; DEBUG := dbg |} with
    | (Return PID, w1) =>
        match get_pid_cpu_percent os PID (buffer_path os PID) w1 with
        | (Return pct, w2) =>
            match init W with
            | inl e => (Raise e, w2)
            | inr tw =>
                match init C with
                | inl e => (Raise e, w2)
                | inr tc =>
                    (SysExit (snd (classify os pct PID tw tc)),
                     {| files := files w2; write_denied := write_denied w2;
                        stdout := stdout w2 ++
                          [fst (classify os pct PID tw tc) +:+ "|"
                           +:+ perfdata os pct tw tc];
                        DEBUG := DEBUG w2 |})
                end
            end
        | (Raise e, w2) => (Raise e, w2)
        | (SysExit c, w2) => (SysExit c, w2)
        end
    | (Raise e, w1) => (Raise e, w1)
    | (SysExit c, w1) => (SysExit c, w1)
    end.
Proof.
  unfold main, mbind, M_bind, bind, parse_args, set_DEBUG. cbn [mret M_ret ret ns_pid_cmd
    ns_debug ns_warning ns_critical].
  destruct (get_pid_from_command os P _) as [[PID|e|c] w1]; try reflexivity.
  destruct (get_pid_cpu_percent os PID (buffer_path os PID) w1) as [[pct|e|c] w2];
    try reflexivity.
  unfold lift. destruct (init W) as [e|tw]; [reflexivity|]. cbn [ret].
  destruct (init C) as [e|tc]; reflexivity.
Qed.

End MainFacts.

(* ===================================================================== *)
(** ** The sampler: persistence and the degraded conditions *)
(* ===================================================================== *)

Module ProbeClaims.
Import StoreFacts ProbeFacts LoadFacts.

Lemma conclude_world l changed pid bf pct w :
  snd (conclude l changed pid bf pct w) = w.
Proof.
  unfold conclude.
  destruct (has_load_missing l); [reflexivity|].
  destruct (has_load_error l); [reflexivity|].
  destruct changed; [|reflexivity].
  destruct (previous l) as [prev|]; [|reflexivity].
  unfold mbind, M_bind, bind, lift. destruct (format_d (Store.pid prev)); reflexivity.
Qed.

Lemma process_before_percent_eq bf pid w l :
  try_load bf w = (Return l, w) ->
  process_before_percent bf pid w = seed l (pid_changed l pid) (new_process pid).
Proof. intros H. unfold process_before_percent. rewrite H. reflexivity. Qed.

Lemma fresh_sample_well_formed pid st2 pt2 : well_formed (fresh_sample pid st2 pt2).
Proof. unfold well_formed, fresh_sample; cbn. repeat split; eexists; reflexivity. Qed.

(** The run, in full, under the standing assumptions. *)
Lemma body_outcome os pid bf w st2 pt2 pct :
  pid_exists os pid = true ->
  is_running os pid = true ->
  read_counters os pid = inr (st2, pt2) ->
  percent_of os (_last_sys_cpu_times (process_before_percent bf pid w))
                (_last_proc_cpu_times (process_before_percent bf pid w))
                st2 pt2 = inr pct ->
  exists l, try_load bf w = (Return l, w) /\
    get_pid_cpu_percent_body os pid bf w =
      match save_to_disk (fresh_sample pid st2 pt2) bf w with
      | (Return _, w') => conclude l (pid_changed l pid) pid bf pct w'
      | (Raise e, w') => (Raise e, w')
      | (SysExit c, w') => (SysExit c, w')
      end.
Proof.
  intros Hex Hrun Hread Hpct.
  destruct (try_load_returns bf w) as [l Hl]. exists l. split; [exact Hl|].
  rewrite (process_before_percent_eq bf pid w l Hl) in Hpct.
  apply body_run; assumption.
Qed.

(** Line 307 before lines 309-315.  In a run where the process exists and
    is running and the counters and the percentage are obtained, a
    [RuntimeError] (the class of the three degraded-condition errors)
    leaves the body only after the fresh sample was written: the world at
    the raise is the world with the state file replaced by that sample,
    loading it gives the sample back, and the sample is well formed and
    carries the requested pid. *)
Lemma persist_before_raise (os : Collaborators) (pid : Z) (bf : string) (w : World)
    (st2 : pyfloat) (pt2 : cpu_times) (pct : pyfloat) (e : exn) (w' : World) :
  pid_exists os pid = true ->
  is_running os pid = true ->
  read_counters os pid = inr (st2, pt2) ->
  percent_of os (_last_sys_cpu_times (process_before_percent bf pid w))
                (_last_proc_cpu_times (process_before_percent bf pid w))
                st2 pt2 = inr pct ->
  get_pid_cpu_percent_body os pid bf w = (Raise e, w') ->
  exc_cls e = RuntimeError ->
  w' = persisted bf (fresh_sample pid st2 pt2) w /\
  load_from_disk bf w' = (Return (fresh_sample pid st2 pt2), w') /\
  well_formed (fresh_sample pid st2 pt2) /\
  Store.pid (fresh_sample pid st2 pt2) = PInt pid.
Proof.
  intros Hex Hrun Hread Hpct Hbody Hcls.
  destruct (body_outcome os pid bf w st2 pt2 pct Hex Hrun Hread Hpct) as [l [Hl E]].
  rewrite E in Hbody. clear E. rewrite save_to_disk_run in Hbody.
  assert (Hw : w' = persisted bf (fresh_sample pid st2 pt2) w).
  { destruct (bool_decide (bf ∈ write_denied w)).
    - cbn in Hbody. destruct (DEBUG w); [|discriminate Hbody].
      inversion Hbody; subst e. discriminate Hcls.
    - pose proof (conclude_world l (pid_changed l pid) pid bf pct
                    (persisted bf (fresh_sample pid st2 pt2) w)) as Hc.
      rewrite Hbody in Hc. exact Hc. }
  split; [exact Hw|]. subst w'.
  split; [apply load_persisted|].
  split; [apply fresh_sample_well_formed|reflexivity].
Qed.

(** The first run on the example machine: nothing on disk, the first-run
    error is raised, and the state file holds the fresh sample. *)
Example first_run_persists :
  get_pid_cpu_percent_body Scenario.machine 42 Scenario.state_file Scenario.first_boot =
    (Raise (Exn RuntimeError
              (first_run_message Scenario.state_file
                 (Some (Exn FileNotFoundError
                          ("[Errno 2] No such file or directory: '"
                           +:+ Scenario.state_file +:+ "'"))))),
     persisted Scenario.state_file
       (fresh_sample 42 (Fin (inject_Z 110)) Scenario.counters_t1) Scenario.first_boot) /\
  load_from_disk Scenario.state_file
    (persisted Scenario.state_file
       (fresh_sample 42 (Fin (inject_Z 110)) Scenario.counters_t1) Scenario.first_boot) =
    (Return (fresh_sample 42 (Fin (inject_Z 110)) Scenario.counters_t1),
     persisted Scenario.state_file
       (fresh_sample 42 (Fin (inject_Z 110)) Scenario.counters_t1) Scenario.first_boot).
Proof.
  assert (Hbody :
    get_pid_cpu_percent_body Scenario.machine 42 Scenario.state_file Scenario.first_boot =
    (Raise (Exn RuntimeError
              (first_run_message Scenario.state_file
                 (Some (Exn FileNotFoundError
                          ("[Errno 2] No such file or directory: '"
                           +:+ Scenario.state_file +:+ "'"))))),
     persisted Scenario.state_file
       (fresh_sample 42 (Fin (inject_Z 110)) Scenario.counters_t1) Scenario.first_boot))
    by (vm_compute; reflexivity).
  split; [exact Hbody|].
  refine (proj1 (proj2
    (persist_before_raise Scenario.machine 42 Scenario.state_file Scenario.first_boot
       (Fin (inject_Z 110)) Scenario.counters_t1
       (Fin (100 * (inject_Z 14 + inject_Z 6) / inject_Z 110)%Q)
       _ _ _ _ _ _ Hbody _)));
    vm_compute; reflexivity.
Qed.

(** What a load returns depends on the files alone. *)
Lemma load_from_disk_files path w1 w2 :
  files w1 = files w2 ->
  fst (load_from_disk path w1) = fst (load_from_disk path w2).
Proof.
  intros H. unfold load_from_disk. rewrite H.
  destruct (files w2 !! path) as [[|text|[]]|]; try reflexivity.
  unfold lift. destruct (from_kwargs d); reflexivity.
Qed.

(** C1, what the code does.  The fresh counters are written at line 307,
    after [cpu_percent()] has returned.  When the state file holds a record
    that loads with the requested pid but from whose baseline the
    collaborator cannot compute (a timestamp or a counter that is not a
    number: nothing checks the types of a loaded record), [cpu_percent()]
    raises before that line although the process exists and its counters
    were read: the body raises that exception in the world it started in.
    The decorated function changes no file; with [DEBUG] off it prints one
    UNKNOWN line and exits with 3.  The next load finds the same record
    again, so every later run ends the same way: this state does not
    heal. *)
Theorem unusable_baseline_is_never_replaced (os : Collaborators) (pid : Z)
    (bf : string) (w : World) (prev : CpuTimesNamedTuple)
    (st2 : pyfloat) (pt2 : cpu_times) (e : exn) :
  pid_exists os pid = true ->
  is_running os pid = true ->
  load_from_disk bf w = (Return prev, w) ->
  ne_int (Store.pid prev) pid = false ->
  read_counters os pid = inr (st2, pt2) ->
  percent_of os (timestamp prev)
    (Some {| pt_user := user prev;
             pt_system := system prev;
             pt_children_user := children_user prev;
             pt_children_system := children_user prev;
             pt_iowait := iowait prev |})
    st2 pt2 = inl e ->
  get_pid_cpu_percent_body os pid bf w = (Raise e, w) /\
  files (snd (get_pid_cpu_percent os pid bf w)) = files w /\
  load_from_disk bf (snd (get_pid_cpu_percent os pid bf w)) =
    (Return prev, snd (get_pid_cpu_percent os pid bf w)) /\
  (DEBUG w = false ->
   get_pid_cpu_percent os pid bf w =
     (SysExit 3,
      {| files := files w;
         write_denied := write_denied w;
         stdout := stdout w ++
           ["UNKNOWN: Got exception while running get_pid_cpu_percent: "
            +:+ class_name (exc_cls e) +:+ ": " +:+ exc_str e];
         DEBUG := DEBUG w |})).
Proof.
  intros Hex Hrun Hload Hpid Hread Hpct.
  assert (Hbody : get_pid_cpu_percent_body os pid bf w = (Raise e, w)).
  { unfold get_pid_cpu_percent_body, mbind, M_bind, bind, psutil_Process, assert_.
    rewrite Hex, Hrun. cbn [mret M_ret ret].
    unfold try_load. rewrite Hload.
    unfold cpu_percent. rewrite seed_pid. cbn [proc_pid new_process].
    rewrite Hread. unfold seed, pid_changed. cbn. rewrite Hpid. cbn.
    rewrite Hpct. reflexivity. }
  assert (Hfiles : files (snd (get_pid_cpu_percent os pid bf w)) = files w).
  { unfold get_pid_cpu_percent, tb2unknown. rewrite Hbody. cbn.
    destruct (DEBUG w); reflexivity. }
  split; [exact Hbody|]. split; [exact Hfiles|]. split.
  - pose proof (load_from_disk_world bf (snd (get_pid_cpu_percent os pid bf w))) as Hw.
    pose proof (load_from_disk_files bf _ _ Hfiles) as Hf.
    rewrite Hload in Hf. cbn in Hf.
    destruct (load_from_disk bf (snd (get_pid_cpu_percent os pid bf w))) as [o w2].
    cbn in Hw, Hf. subst. reflexivity.
  - intros Hdebug. unfold get_pid_cpu_percent, tb2unknown. rewrite Hbody. cbn.
    rewrite Hdebug. reflexivity.
Qed.

(** On the example machine, a state file with the pid of the running
    process and the string ["yesterday"] for timestamp: the run ends in
    exit 3 and the file is as it was. *)
Lemma unusable_baseline_is_never_replaced_witness :
  get_pid_cpu_percent Scenario.machine 42 Scenario.state_file
    (persisted Scenario.state_file Scenario.mistyped_timestamp Scenario.first_boot) =
    (SysExit 3,
     {| files := {[ Scenario.state_file :=
                      JsonDoc (PDict (_asdict Scenario.mistyped_timestamp)) ]};
        write_denied := ∅;
        stdout := ["UNKNOWN: Got exception while running get_pid_cpu_percent: "
                   +:+ "TypeError: unsupported operand type(s) for -"];
        DEBUG := false |}).
Proof.
  refine (proj2 (proj2 (proj2
    (unusable_baseline_is_never_replaced Scenario.machine 42 Scenario.state_file
       (persisted Scenario.state_file Scenario.mistyped_timestamp Scenario.first_boot)
       Scenario.mistyped_timestamp (Fin (inject_Z 110)) Scenario.counters_t1
       (Exn TypeError "unsupported operand type(s) for -")
       _ _ _ _ _ _))) _);
    vm_compute; reflexivity.
Defined.

(** The exception of a file that exists is never [FileNotFoundError]. *)
Lemma load_existing_not_missing bf w e :
  files w !! bf <> None ->
  load_from_disk bf w = (Raise e, w) -> is_FileNotFoundError e = false.
Proof.
  unfold load_from_disk. intros Hsome.
  destruct (files w !! bf) as [[|text|[]]|]; try congruence;
    try (intros H; inversion H; reflexivity).
  unfold lift, from_kwargs.
  destruct (negb (bool_decide (dom d ⊆ list_to_set _fields)));
    [intros H; inversion H; reflexivity|].
  destruct (d !! "pid"), (d !! "timestamp"), (d !! "user"), (d !! "system"),
    (d !! "children_user"), (d !! "children_system"), (d !! "iowait");
    intros H; inversion H; reflexivity.
Qed.

Lemma load_missing bf w :
  files w !! bf = None ->
  load_from_disk bf w =
    (Raise (Exn FileNotFoundError
              ("[Errno 2] No such file or directory: '" +:+ bf +:+ "'")), w).
Proof. intros H. unfold load_from_disk. rewrite H. reflexivity. Qed.

Lemma messages_distinct bf e1 e2 old pid :
  first_run_message bf e1 <> corrupted_message bf e2 /\
  first_run_message bf e1 <> pid_changed_message old pid /\
  corrupted_message bf e2 <> pid_changed_message old pid.
Proof. repeat split; intros H; discriminate H. Qed.

(** The baseline when the previous sample loads with the requested pid. *)
Lemma process_before_percent_loaded bf pid w prev :
  load_from_disk bf w = (Return prev, w) ->
  ne_int (Store.pid prev) pid = false ->
  process_before_percent bf pid w =
    {| proc_pid := pid;
       _last_sys_cpu_times := timestamp prev;
       _last_proc_cpu_times :=
         Some {| pt_user := user prev;
                 pt_system := system prev;
                 pt_children_user := children_user prev;
                 pt_children_system := children_user prev;
                 pt_iowait := iowait prev |} |}.
Proof.
  intros Hload Hpid. unfold process_before_percent, try_load. rewrite Hload.
  unfold seed, pid_changed. cbn. rewrite Hpid. reflexivity.
Qed.

(** The good run: the record loads with the requested pid, the sample is
    written, the percentage is returned. *)
Lemma body_returns_percent os pid bf w st2 pt2 pct prev :
  pid_exists os pid = true ->
  is_running os pid = true ->
  read_counters os pid = inr (st2, pt2) ->
  percent_of os (_last_sys_cpu_times (process_before_percent bf pid w))
                (_last_proc_cpu_times (process_before_percent bf pid w))
                st2 pt2 = inr pct ->
  bf ∉ write_denied w ->
  load_from_disk bf w = (Return prev, w) ->
  Store.pid prev = PInt pid ->
  get_pid_cpu_percent_body os pid bf w =
    (Return pct, persisted bf (fresh_sample pid st2 pt2) w).
Proof.
  intros Hex Hrun Hread Hpct Hwr Hload Hpid.
  destruct (body_outcome os pid bf w st2 pt2 pct Hex Hrun Hread Hpct) as [l [Hl E]].
  rewrite save_to_disk_run in E.
  rewrite (bool_decide_eq_false_2 _ Hwr) in E.
  unfold try_load in Hl. rewrite Hload in Hl. inversion Hl; subst l.
  rewrite E. unfold conclude, pid_changed. cbn. rewrite Hpid. cbn.
  rewrite Z.eqb_refl. reflexivity.
Qed.

(** C3.  In a run where the process exists and is running, the counters and
    the percentage are obtained and the state file can be written, the
    world after the run holds the fresh sample and the outcome depends on
    the load alone: no file raises the first-run error; a file that exists
    but does not load raises the corrupted error; a loaded record whose pid
    is another int raises the pid-changed error; a loaded record with the
    requested pid returns the percentage.  The three error messages are
    pairwise different. *)
Theorem degraded_conditions_distinct (os : Collaborators) (pid : Z) (bf : string)
    (w : World) (st2 : pyfloat) (pt2 : cpu_times) (pct : pyfloat) :
  pid_exists os pid = true ->
  is_running os pid = true ->
  read_counters os pid = inr (st2, pt2) ->
  percent_of os (_last_sys_cpu_times (process_before_percent bf pid w))
                (_last_proc_cpu_times (process_before_percent bf pid w))
                st2 pt2 = inr pct ->
  bf ∉ write_denied w ->
  let w' := persisted bf (fresh_sample pid st2 pt2) w in
  (files w !! bf = None ->
   get_pid_cpu_percent_body os pid bf w =
     (Raise (Exn RuntimeError
               (first_run_message bf
                  (Some (Exn FileNotFoundError
                           ("[Errno 2] No such file or directory: '" +:+ bf +:+ "'"))))),
      w')) /\
  (forall e, files w !! bf <> None -> load_from_disk bf w = (Raise e, w) ->
   get_pid_cpu_percent_body os pid bf w =
     (Raise (Exn RuntimeError (corrupted_message bf (Some e))), w')) /\
  (forall prev z, load_from_disk bf w = (Return prev, w) ->
   Store.pid prev = PInt z -> z <> pid ->
   get_pid_cpu_percent_body os pid bf w =
     (Raise (Exn RuntimeError (pid_changed_message (pretty z) pid)), w')) /\
  (forall prev, load_from_disk bf w = (Return prev, w) ->
   Store.pid prev = PInt pid ->
   get_pid_cpu_percent_body os pid bf w = (Return pct, w')) /\
  (forall e1 e2 old,
     first_run_message bf e1 <> corrupted_message bf e2 /\
     first_run_message bf e1 <> pid_changed_message old pid /\
     corrupted_message bf e2 <> pid_changed_message old pid).
Proof.
  intros Hex Hrun Hread Hpct Hwr w'.
  destruct (body_outcome os pid bf w st2 pt2 pct Hex Hrun Hread Hpct) as [l [Hl E]].
  rewrite save_to_disk_run in E.
  rewrite (bool_decide_eq_false_2 _ Hwr) in E. fold w' in E.
  unfold try_load in Hl.
  split; [|split; [|split; [|split]]].
  - intros Hnone. rewrite (load_missing bf w Hnone) in Hl. cbn in Hl.
    inversion Hl; subst l. rewrite E. reflexivity.
  - intros e Hsome Hload.
    rewrite Hload, (load_existing_not_missing bf w e Hsome Hload) in Hl.
    inversion Hl; subst l. rewrite E. reflexivity.
  - intros prev z Hload Hpid Hne. rewrite Hload in Hl. inversion Hl; subst l.
    rewrite E. unfold conclude, pid_changed. cbn. rewrite Hpid. cbn.
    destruct (Z.eqb_spec z pid) as [->|_]; [congruence|]. reflexivity.
  - intros prev Hload Hpid. apply (body_returns_percent os pid bf w st2 pt2 pct prev);
      assumption.
  - intros e1 e2 old. apply messages_distinct.
Qed.

(** A second run on the example machine, ten time units after the first:
    the state file loads, the pid matches, the percentage is returned. *)
Lemma degraded_conditions_distinct_witness :
  get_pid_cpu_percent_body Scenario.machine 42 Scenario.state_file Scenario.after_t0 =
    (Return (Fin (100 * ((inject_Z 14 - inject_Z 10) + (inject_Z 6 - inject_Z 5))
                  / (inject_Z 110 - inject_Z 100))%Q),
     persisted Scenario.state_file
       (fresh_sample 42 (Fin (inject_Z 110)) Scenario.counters_t1) Scenario.after_t0).
Proof.
  refine (proj1 (proj2 (proj2 (proj2
    (degraded_conditions_distinct Scenario.machine 42 Scenario.state_file
       Scenario.after_t0 (Fin (inject_Z 110)) Scenario.counters_t1
       (Fin (100 * ((inject_Z 14 - inject_Z 10) + (inject_Z 6 - inject_Z 5))
             / (inject_Z 110 - inject_Z 100))%Q)
       _ _ _ _ _)))) Scenario.sample_t0 _ _);
    try (vm_compute; reflexivity).
  apply not_elem_of_empty.
Defined.

(** C6, what the code does.  When the previous sample loads and its pid is
    the requested one, the baseline put into the [Process] object takes
    timestamp, user, system, children_user and iowait from the fields of
    the same name, but [children_system] from the previous sample's
    [children_user]. *)
Theorem seed_children_system_from_children_user (bf : string) (pid : Z) (w : World)
    (prev : CpuTimesNamedTuple) :
  load_from_disk bf w = (Return prev, w) ->
  ne_int (Store.pid prev) pid = false ->
  process_before_percent bf pid w =
    {| proc_pid := pid;
       _last_sys_cpu_times := timestamp prev;
       _last_proc_cpu_times :=
         Some {| pt_user := user prev;
                 pt_system := system prev;
                 pt_children_user := children_user prev;
                 pt_children_system := children_user prev;
                 pt_iowait := iowait prev |} |}.
Proof. apply process_before_percent_loaded. Qed.

(** On the example machine the previous sample has [children_user = 1] and
    [children_system = 2]; the baseline gets [1] for both. *)
Lemma seed_children_system_from_children_user_witness :
  children_system Scenario.sample_t0 = PFloat (Fin (inject_Z 2)) /\
  option_map pt_children_system
    (_last_proc_cpu_times
       (process_before_percent Scenario.state_file 42 Scenario.after_t0)) =
  Some (PFloat (Fin (inject_Z 1))).
Proof.
  split; [reflexivity|].
  rewrite (seed_children_system_from_children_user Scenario.state_file 42
             Scenario.after_t0 Scenario.sample_t0);
    [reflexivity | vm_compute; reflexivity | reflexivity].
Defined.

(** The decorator lets a returning method through unchanged. *)
Lemma tb2unknown_return {A} name (method : M A) w a w' :
  method w = (Return a, w') -> tb2unknown name method w = (Return a, w').
Proof. intros H. unfold tb2unknown. rewrite H. reflexivity. Qed.

(** C9.  With the specification's formula for the collaborator: when the
    previous sample loads with the requested pid and holds finite numbers,
    taken at an earlier timestamp, the sampler returns
    [100 * ((user_now - user_prev) + (system_now - system_prev)) /
    (timestamp_now - timestamp_prev)], normalized by the collaborator's
    convention; the iowait counters, old and new, play no part. *)
Theorem percent_from_previous_sample (normalize : Q -> Q) (os : Collaborators)
    (pid : Z) (bf : string) (w : World) (prev : CpuTimesNamedTuple)
    (pt2 : cpu_times) (t1 u1 s1 t2 u2 s2 : Q) :
  pid_exists os pid = true ->
  is_running os pid = true ->
  read_counters os pid = inr (Fin t2, pt2) ->
  ct_user pt2 = Fin u2 ->
  ct_system pt2 = Fin s2 ->
  load_from_disk bf w = (Return prev, w) ->
  Store.pid prev = PInt pid ->
  timestamp prev = PFloat (Fin t1) ->
  user prev = PFloat (Fin u1) ->
  system prev = PFloat (Fin s1) ->
  bf ∉ write_denied w ->
  (t1 < t2)%Q ->
  get_pid_cpu_percent (with_spec_percent normalize os) pid bf w =
    (Return (Fin (normalize (100 * ((u2 - u1) + (s2 - s1)) / (t2 - t1))%Q)),
     persisted bf (fresh_sample pid (Fin t2) pt2) w).
Proof.
  intros Hex Hrun Hread Hu2 Hs2 Hload Hpid Ht1 Hu1 Hs1 Hwr _.
  apply tb2unknown_return.
  assert (Hne : ne_int (Store.pid prev) pid = false)
    by (rewrite Hpid; cbn; rewrite Z.eqb_refl; reflexivity).
  refine (body_returns_percent (with_spec_percent normalize os) pid bf w
            (Fin t2) pt2 _ prev Hex Hrun Hread _ Hwr Hload Hpid).
  rewrite (process_before_percent_loaded bf pid w prev Hload Hne).
  cbn. unfold spec_percent. rewrite Hu2, Hs2, Ht1. cbn. rewrite Hu1, Hs1. reflexivity.
Qed.

(** The specification's scenario: user 10 to 14, system 5 to 6, iowait 1 to
    3, over 10 time units, gives 50. *)
Lemma percent_from_previous_sample_witness :
  exists q,
    get_pid_cpu_percent Scenario.machine 42 Scenario.state_file Scenario.after_t0 =
      (Return (Fin q),
       persisted Scenario.state_file
         (fresh_sample 42 (Fin (inject_Z 110)) Scenario.counters_t1) Scenario.after_t0) /\
    (q == 50)%Q.
Proof.
  eexists. split.
  - refine (percent_from_previous_sample (fun q => q) Scenario.machine 42
              Scenario.state_file Scenario.after_t0 Scenario.sample_t0
              Scenario.counters_t1
              (inject_Z 100) (inject_Z 10) (inject_Z 5)
              (inject_Z 110) (inject_Z 14) (inject_Z 6)
              _ _ _ _ _ _ _ _ _ _ _ _);
      try (vm_compute; reflexivity).
    apply not_elem_of_empty.
  - vm_compute. reflexivity.
Defined.

(** The load step, case by case.  Only a path with no file is classified as
    missing.  A file that cannot be read, text that is not JSON, a JSON
    value that is not an object, and an object whose keys are not exactly
    the seven field names are all classified as corrupt.  An object with
    exactly the seven keys loads with whatever values it holds, of any
    type, and is then classified by comparing its pid with the requested
    one: identity changed when they differ, loaded when they are equal. *)
Lemma load_classification (bf : string) (pid : Z) (w : World) :
  match files w !! bf with
  | None => load_condition bf pid w = Some Missing
  | Some Unreadable => load_condition bf pid w = Some Corrupt
  | Some (Garbage _) => load_condition bf pid w = Some Corrupt
  | Some (JsonDoc (PDict d)) =>
      if decide (dom d = list_to_set _fields) then
        exists prev,
          d = _asdict prev /\
          load_from_disk bf w = (Return prev, w) /\
          load_condition bf pid w =
            Some (if ne_int (Store.pid prev) pid then IdentityChanged else Loaded)
      else load_condition bf pid w = Some Corrupt
  | Some (JsonDoc _) => load_condition bf pid w = Some Corrupt
  end.
Proof.
  unfold load_condition, try_load, load_from_disk.
  destruct (files w !! bf) as [[|text|[]]|]; try reflexivity.
  destruct (decide (dom d = list_to_set _fields)) as [Hdom|Hdom].
  - destruct (from_kwargs_exact d Hdom) as [prev [E ->]]. exists prev.
    rewrite E. cbn. split; [reflexivity|]. split; [reflexivity|].
    unfold condition_of, pid_changed. cbn.
    destruct (ne_int (Store.pid prev) pid); reflexivity.
  - destruct (from_kwargs_inexact d Hdom) as [e [E Hcls]].
    rewrite E. cbn. unfold is_FileNotFoundError. rewrite Hcls. reflexivity.
Qed.

(** C10, what the code does.  A record with a wrongly typed field raises
    nothing in the load step: whatever the seven values are, the file
    loads, and it is classified by comparing its pid with the requested
    one, never as corrupt.  On the example machine: with the pid stored as
    the string ["42"], a run for pid 42 takes the file for the record of
    another process, writes the fresh sample, and line 315 then raises
    [TypeError] from its [%d] instead of the pid-changed error; with a
    string for timestamp and the right pid the file counts as loaded, and
    [cpu_percent()] raises [TypeError] before anything is written. *)
Theorem mistyped_records_not_corrupt :
  (forall bf pid w prev,
     load_from_disk bf (persisted bf prev w) = (Return prev, persisted bf prev w) /\
     load_condition bf pid (persisted bf prev w) =
       Some (if ne_int (Store.pid prev) pid then IdentityChanged else Loaded)) /\
  ~ well_formed Scenario.mistyped_pid /\
  load_condition Scenario.state_file 42
    (persisted Scenario.state_file Scenario.mistyped_pid Scenario.first_boot) =
    Some IdentityChanged /\
  get_pid_cpu_percent_body Scenario.machine 42 Scenario.state_file
    (persisted Scenario.state_file Scenario.mistyped_pid Scenario.first_boot) =
    (Raise (Exn TypeError "%d format: a real number is required, not str"),
     persisted Scenario.state_file
       (fresh_sample 42 (Fin (inject_Z 110)) Scenario.counters_t1)
       Scenario.first_boot) /\
  ~ well_formed Scenario.mistyped_timestamp /\
  load_condition Scenario.state_file 42
    (persisted Scenario.state_file Scenario.mistyped_timestamp Scenario.first_boot) =
    Some Loaded /\
  get_pid_cpu_percent_body Scenario.machine 42 Scenario.state_file
    (persisted Scenario.state_file Scenario.mistyped_timestamp Scenario.first_boot) =
    (Raise (Exn TypeError "unsupported operand type(s) for -"),
     persisted Scenario.state_file Scenario.mistyped_timestamp Scenario.first_boot).
Proof.
  split; [|split; [|split; [|split; [|split; [|split]]]]].
  - intros bf pid w prev.
    pose proof (load_persisted bf prev w) as Hl. split; [exact Hl|].
    unfold load_condition, try_load. rewrite Hl.
    unfold condition_of, pid_changed. cbn.
    destruct (ne_int (Store.pid prev) pid); reflexivity.
  - intros [[z Hz] _]. discriminate Hz.
  - vm_compute. reflexivity.
  - vm_compute. reflexivity.
  - intros [_ [[x Hx] _]]. discriminate Hx.
  - vm_compute. reflexivity.
  - vm_compute. reflexivity.
Qed.

(** C5, what the code does.  On the example machine with a state file from
    an earlier run, the command line with an empty warning threshold gets through
    argument parsing, pid resolution and sampling; then
    [NagiosThreshold] on the empty text, which no decorator wraps, raises
    [AssertionError] out of the script: nothing was printed and the
    interpreter ends with status 1, not 3. *)
Theorem empty_threshold_escapes_unknown :
  let run := main Scenario.machine (Arguments EmptyString "90" "systemctl show nginx" false)
                  Scenario.after_t0 in
  fst run = Raise (Exn AssertionError "raw parameter must be a non-empty string") /\
  stdout (snd run) = [] /\
  exit_status (fst run) = 1.
Proof. vm_compute. repeat split; reflexivity. Qed.

End ProbeClaims.

(* ===================================================================== *)
(** ** The script's verdict *)
(* ===================================================================== *)

Module MainClaims.
Import Threshold FloatFacts ThresholdClaims MainFacts.

(** C7.  The verdict of the script.  When the pid is resolved, the sampler
    returns a percentage and both threshold texts parse, [__main__] looks
    at the critical range first.  If the percentage violates it, the script
    prints the CRITICAL line with that violation and exits with 2, whatever
    the warning range says.  Otherwise, if the percentage violates the
    warning range, it prints the WARNING line and exits with 1.  Otherwise
    it prints the OK line and exits with 0; the explanation in that line
    writes out the two comparisons that place the percentage inside the
    warning range's interval, and those comparisons hold unless the
    percentage is NaN, which violates no range. *)
Theorem main_classifies_critical_first (os : Collaborators) (W C P : string)
    (debug : bool) (w w1 w2 : World) (PID : Z) (pct : pyfloat)
    (tw tc : NagiosThreshold) :
  get_pid_from_command os P
    {| files := files w; write_denied := write_denied w;
       stdout := stdout w; DEBUG := debug |} = (Return PID, w1) ->
  get_pid_cpu_percent os PID (buffer_path os PID) w1 = (Return pct, w2) ->
  init W = inr tw ->
  init C = inr tc ->
  let printed (MESSAGE : string) :=
    {| files := files w2; write_denied := write_denied w2;
       stdout := stdout w2 ++ [MESSAGE +:+ "|" +:+ perfdata os pct tw tc];
       DEBUG := DEBUG w2 |} in
  match is_outside_boundaries (str_float os) tc (NFloat pct),
        is_outside_boundaries (str_float os) tw (NFloat pct) with
  | Some why, _ =>
      main os (Arguments W C P debug) w =
        (SysExit 2,
         printed ("CRITICAL: " +:+ fmt_0f os pct +:+ "% CPU usage for PID " +:+ pretty PID
                  +:+ " is outside critical limits (" +:+ why +:+ ")"))
  | None, Some why =>
      main os (Arguments W C P debug) w =
        (SysExit 1,
         printed ("WARNING: " +:+ fmt_1f os pct +:+ "% CPU usage for PID " +:+ pretty PID
                  +:+ " is outside warning limits (" +:+ why +:+ ")"))
  | None, None =>
      main os (Arguments W C P debug) w =
        (SysExit 0,
         printed ("OK: " +:+ fmt_1f os pct +:+ "% CPU usage for PID " +:+ pretty PID
                  +:+ " is inside limits ("
                  +:+ str_float os pct +:+ (if inclusive tw then ">=" else ">")
                  +:+ str_num (str_float os) (low_boundary tw)
                  +:+ " and "
                  +:+ str_float os pct +:+ (if inclusive tw then "<=" else "<")
                  +:+ str_num (str_float os) (high_boundary tw) +:+ ")")) /\
      (pct <> NaN ->
       if inclusive tw
       then le (low_boundary tw) (NFloat pct) /\ le (NFloat pct) (high_boundary tw)
       else lt (low_boundary tw) (NFloat pct) /\ lt (NFloat pct) (high_boundary tw))
  end.
Proof.
  intros Hpid Hpct HW HC printed.
  pose proof (main_unfold os W C P debug w) as Hmain.
  rewrite Hpid, Hpct, HW, HC in Hmain. fold (printed (fst (classify os pct PID tw tc))) in Hmain.
  pose proof (classify_cases os pct PID tw tc) as Hcls.
  destruct (init_not_nan W tw HW) as [Hlow Hhigh].
  destruct (is_outside_boundaries (str_float os) tc (NFloat pct)) as [why|].
  - rewrite Hcls in Hmain. exact Hmain.
  - destruct (is_outside_boundaries (str_float os) tw (NFloat pct)) as [why|].
    + rewrite Hcls in Hmain. exact Hmain.
    + destruct Hcls as [Hcls Hin]. rewrite Hcls in Hmain.
      split; [exact Hmain|]. intros Hp. exact (Hin Hp Hlow Hhigh).
Qed.

(** On the example machine the percentage is 50: with warning ["40"] and
    critical ["45"] both ranges are violated, and the verdict is CRITICAL
    with code 2. *)
Lemma main_classifies_critical_first_witness :
  is_outside_boundaries (str_float Scenario.machine)
    {| inclusive := false; low_boundary := NInt 0;
       high_boundary := NFloat (Fin (inject_Z 40)) |}
    (NFloat (Fin (100 * ((inject_Z 14 - inject_Z 10) + (inject_Z 6 - inject_Z 5))
                  / (inject_Z 110 - inject_Z 100))%Q)) <> None /\
  fst (main Scenario.machine (Arguments "40" "45" "pidof nginx" false) Scenario.after_t0) =
    SysExit 2 /\
  last (stdout (snd (main Scenario.machine (Arguments "40" "45" "pidof nginx" false)
                       Scenario.after_t0))) =
    Some ("CRITICAL: <float>% CPU usage for PID 42 is outside critical limits "
          +:+ "(<float>>=<float>)|cpu_percentage=<float>%;0..<float>;0..<float>;0;400").
Proof.
  split; [vm_compute; discriminate|].
  pose proof (main_classifies_critical_first Scenario.machine "40" "45" "pidof nginx" false
                Scenario.after_t0
                (snd (get_pid_from_command Scenario.machine "pidof nginx" Scenario.after_t0))
                (snd (get_pid_cpu_percent Scenario.machine 42 Scenario.state_file
                        Scenario.after_t0))
                42
                (Fin (100 * ((inject_Z 14 - inject_Z 10) + (inject_Z 6 - inject_Z 5))
                      / (inject_Z 110 - inject_Z 100))%Q)
                {| inclusive := false; low_boundary := NInt 0;
                   high_boundary := NFloat (Fin (inject_Z 40)) |}
                {| inclusive := false; low_boundary := NInt 0;
                   high_boundary := NFloat (Fin (inject_Z 45)) |}
                ltac:(vm_compute; reflexivity) ltac:(vm_compute; reflexivity)
                ltac:(vm_compute; reflexivity) ltac:(vm_compute; reflexivity)) as H.
  cbv zeta in H.
  assert (Ec : is_outside_boundaries (str_float Scenario.machine)
                 {| inclusive := false; low_boundary := NInt 0;
                    high_boundary := NFloat (Fin (inject_Z 45)) |}
                 (NFloat (Fin (100 * ((inject_Z 14 - inject_Z 10) + (inject_Z 6 - inject_Z 5))
                               / (inject_Z 110 - inject_Z 100))%Q)) =
               Some "<float>>=<float>") by (vm_compute; reflexivity).
  rewrite Ec in H. rewrite H. split; vm_compute; reflexivity.
Defined.

End MainClaims.

(* ===================================================================== *)
(** ** More on the sampler: what a run does to the world *)
(* ===================================================================== *)

Module SamplerExtras.
Import StoreFacts ProbeFacts LoadFacts.

Lemma tb2unknown_passes {A} name (method : M A) w a w' :
  method w = (Return a, w') -> tb2unknown name method w = (Return a, w').
Proof. intros H. unfold tb2unknown. rewrite H. reflexivity. Qed.

(** Every run of the body either raises before anything was written, the
    world untouched, or gets as far as [save_to_disk] with the fresh
    sample. *)
Lemma body_shape os pid bf w :
  (exists e, get_pid_cpu_percent_body os pid bf w = (Raise e, w)) \/
  (exists st2 pt2 pct l,
     read_counters os pid = inr (st2, pt2) /\
     try_load bf w = (Return l, w) /\
     get_pid_cpu_percent_body os pid bf w =
       match save_to_disk (fresh_sample pid st2 pt2) bf w with
       | (Return _, w') => conclude l (pid_changed l pid) pid bf pct w'
       | (Raise e, w') => (Raise e, w')
       | (SysExit c, w') => (SysExit c, w')
       end).
Proof.
  destruct (try_load_returns bf w) as [l Hl].
  destruct (pid_exists os pid) eqn:Hex.
  2:{ left. eexists. unfold get_pid_cpu_percent_body, mbind, M_bind, bind, psutil_Process.
      rewrite Hex. reflexivity. }
  destruct (is_running os pid) eqn:Hrun.
  2:{ left. eexists. unfold get_pid_cpu_percent_body, mbind, M_bind, bind, psutil_Process,
        assert_. rewrite Hex, Hrun. reflexivity. }
  destruct (read_counters os pid) as [e|[st2 pt2]] eqn:Hread.
  { left. exists e.
    unfold get_pid_cpu_percent_body, mbind, M_bind, bind, psutil_Process, assert_.
    rewrite Hex, Hrun. cbn [mret M_ret ret]. rewrite Hl.
    unfold cpu_percent. rewrite seed_pid. cbn [proc_pid new_process].
    rewrite Hread. reflexivity. }
  destruct (percent_of os
              (_last_sys_cpu_times (seed l (pid_changed l pid) (new_process pid)))
              (_last_proc_cpu_times (seed l (pid_changed l pid) (new_process pid)))
              st2 pt2) as [e|pct] eqn:Hpct.
  { left. exists e.
    unfold get_pid_cpu_percent_body, mbind, M_bind, bind, psutil_Process, assert_.
    rewrite Hex, Hrun. cbn [mret M_ret ret]. rewrite Hl.
    unfold cpu_percent. rewrite seed_pid. cbn [proc_pid new_process].
    rewrite Hread, Hpct. reflexivity. }
  right. exists st2, pt2, pct, l. split; [reflexivity|]. split; [exact Hl|].
  apply body_run; assumption.
Qed.

Lemma conclude_keeps_world l changed pid bf pct w :
  snd (conclude l changed pid bf pct w) = w.
Proof.
  unfold conclude.
  destruct (has_load_missing l); [reflexivity|].
  destruct (has_load_error l); [reflexivity|].
  destruct changed; [|reflexivity].
  destruct (previous l) as [prev|]; [|reflexivity].
  unfold mbind, M_bind, bind, lift. destruct (format_d (Store.pid prev)); reflexivity.
Qed.

Lemma conclude_no_exit l changed pid bf pct w c :
  fst (conclude l changed pid bf pct w) <> SysExit c.
Proof.
  unfold conclude.
  destruct (has_load_missing l); [discriminate|].
  destruct (has_load_error l); [discriminate|].
  destruct changed; [|discriminate].
  destruct (previous l) as [prev|]; [|discriminate].
  unfold mbind, M_bind, bind, lift. destruct (format_d (Store.pid prev)); discriminate.
Qed.


Lemma body_world os pid bf w :
  DEBUG (snd (get_pid_cpu_percent_body os pid bf w)) = DEBUG w /\
  write_denied (snd (get_pid_cpu_percent_body os pid bf w)) = write_denied w.
Proof.
  destruct (body_shape os pid bf w) as [[e E]|[st2 [pt2 [pct [l [_ [_ E]]]]]]];
    rewrite E; clear E.
  - cbn. auto.
  - rewrite save_to_disk_run.
    destruct (bool_decide (bf ∈ write_denied w)).
    + cbn. destruct (DEBUG w); cbn; auto.
    + pose proof (conclude_keeps_world l (pid_changed l pid) pid bf pct
                    (persisted bf (fresh_sample pid st2 pt2) w)) as Hc.
      cbn in Hc |- *. rewrite Hc. cbn. split; reflexivity.
Qed.

(** The line [tb2unknown] prints for an exception of the method [name]. *)
Lemma tb2unknown_raise {A} name (method : M A) w e w' :
  method w = (Raise e, w') ->
  tb2unknown name method w =
    (if DEBUG w' then Raise e else SysExit 3,
     {| files := files w'; write_denied := write_denied w';
        stdout := stdout w' ++ ["UNKNOWN: Got exception while running " +:+ name +:+ ": "
                                +:+ class_name (exc_cls e) +:+ ": " +:+ exc_str e];
        DEBUG := DEBUG w' |}).
Proof.
  intros H. unfold tb2unknown. rewrite H. cbn. destruct (DEBUG w'); reflexivity.
Qed.

(** X2.  With [DEBUG] off, [get_pid_cpu_percent] never raises: it returns
    the percentage or ends the script with [sys.exit(3)], and in that case
    the last line printed is an UNKNOWN line. *)
Theorem sampler_exits_3_or_returns (os : Collaborators) (pid : Z) (bf : string)
    (w : World) :
  DEBUG w = false ->
  match fst (get_pid_cpu_percent os pid bf w) with
  | Return _ => True
  | Raise _ => False
  | SysExit code =>
      code = 3 /\
      exists rest,
        last (stdout (snd (get_pid_cpu_percent os pid bf w))) =
        Some ("UNKNOWN: Got exception while running " +:+ rest)
  end.
Proof.
  intros Hdbg. unfold get_pid_cpu_percent.
  destruct (get_pid_cpu_percent_body os pid bf w) as [[pct|e|c] w'] eqn:E.
  - rewrite (tb2unknown_passes _ _ _ _ _ E). exact I.
  - rewrite (tb2unknown_raise _ _ _ _ _ E).
    pose proof (proj1 (body_world os pid bf w)) as Hd. rewrite E in Hd. cbn in Hd.
    rewrite Hd, Hdbg. cbn. split; [reflexivity|].
    eexists. rewrite last_snoc. reflexivity.
  - unfold tb2unknown. rewrite E. cbn.
    destruct (body_shape os pid bf w) as [[e E']|[st2 [pt2 [pct [l [_ [_ E']]]]]]];
      rewrite E' in E; [discriminate E|].
    rewrite save_to_disk_run in E.
    destruct (bool_decide (bf ∈ write_denied w)).
    + rewrite Hdbg in E. cbn in E. inversion E; subst c w'. cbn.
      split; [reflexivity|]. eexists. rewrite last_snoc. reflexivity.
    + exfalso.
      apply (conclude_no_exit l (pid_changed l pid) pid bf pct
               (persisted bf (fresh_sample pid st2 pt2) w) c).
      rewrite E. reflexivity.
Qed.

(** The first run on the example machine ends with exit code 3. *)
Lemma sampler_exits_3_or_returns_witness :
  match fst (get_pid_cpu_percent Scenario.machine 42 Scenario.state_file
               Scenario.first_boot) with
  | Return _ => True
  | Raise _ => False
  | SysExit code =>
      code = 3 /\
      exists rest,
        last (stdout (snd (get_pid_cpu_percent Scenario.machine 42 Scenario.state_file
                             Scenario.first_boot))) =
        Some ("UNKNOWN: Got exception while running " +:+ rest)
  end.
Proof. apply sampler_exits_3_or_returns. reflexivity. Defined.





(** X4.  Nothing is written when the run fails before the counters and the
    percentage are there: a pid that does not exist, a process that is not
    running, a failed counter read or a failed percentage leave the files
    exactly as they were. *)
Theorem no_write_without_fresh_counters (os : Collaborators) (pid : Z) (bf : string)
    (w : World) :
  pid_exists os pid = false \/
  is_running os pid = false \/
  (exists e, read_counters os pid = inl e) \/
  (exists st2 pt2 e,
     read_counters os pid = inr (st2, pt2) /\
     percent_of os (_last_sys_cpu_times (process_before_percent bf pid w))
                   (_last_proc_cpu_times (process_before_percent bf pid w))
                   st2 pt2 = inl e) ->
  files (snd (get_pid_cpu_percent os pid bf w)) = files w /\
  forall a, fst (get_pid_cpu_percent os pid bf w) <> Return a.
Proof.
  intros H.
  assert (Hbody : exists e, get_pid_cpu_percent_body os pid bf w = (Raise e, w)).
  { destruct (try_load_returns bf w) as [l Hl].
    unfold get_pid_cpu_percent_body, mbind, M_bind, bind, psutil_Process, assert_.
    destruct (pid_exists os pid) eqn:Hex; [|eexists; reflexivity].
    destruct (is_running os pid) eqn:Hrun; [|eexists; reflexivity].
    cbn [mret M_ret ret]. rewrite Hl.
    unfold cpu_percent. rewrite seed_pid. cbn [proc_pid new_process].
    destruct H as [H|[H|[[e H]|[st2 [pt2 [e [Hr H]]]]]]]; try discriminate H.
    - rewrite H. eexists. reflexivity.
    - rewrite Hr. unfold process_before_percent in H. rewrite Hl in H. rewrite H.
      eexists. reflexivity. }
  destruct Hbody as [e E]. unfold get_pid_cpu_percent.
  rewrite (tb2unknown_raise _ _ _ _ _ E). cbn. split; [reflexivity|].
  intros a. destruct (DEBUG w); discriminate.
Qed.

(** Process 7 does not exist on the example machine. *)
Lemma no_write_without_fresh_counters_witness :
  files (snd (get_pid_cpu_percent Scenario.machine 7 Scenario.state_file
                Scenario.after_t0)) = files Scenario.after_t0.
Proof.
  apply (no_write_without_fresh_counters Scenario.machine 7 Scenario.state_file
           Scenario.after_t0).
  left. reflexivity.
Defined.

(** X5.  A refused write is reported by the innermost decorator.  When the
    run gets as far as saving and the buffer file cannot be written, the
    files stay as they were; with [DEBUG] off the script ends with
    [sys.exit(3)] after one UNKNOWN line naming [save_to_disk]; with
    [DEBUG] on the [PermissionError] is raised on, through the second
    decorator, which prints a second line naming [get_pid_cpu_percent]. *)
Theorem refused_write_is_reported (os : Collaborators) (pid : Z) (bf : string)
    (w : World) (st2 : pyfloat) (pt2 : cpu_times) (pct : pyfloat) :
  pid_exists os pid = true ->
  is_running os pid = true ->
  read_counters os pid = inr (st2, pt2) ->
  percent_of os (_last_sys_cpu_times (process_before_percent bf pid w))
                (_last_proc_cpu_times (process_before_percent bf pid w))
                st2 pt2 = inr pct ->
  bf ∈ write_denied w ->
  let text := "[Errno 13] Permission denied: '" +:+ bf +:+ "'" in
  let line name :=
    "UNKNOWN: Got exception while running " +:+ name +:+ ": PermissionError: " +:+ text in
  get_pid_cpu_percent os pid bf w =
    (if DEBUG w then Raise (Exn PermissionError text) else SysExit 3,
     {| files := files w; write_denied := write_denied w;
        stdout := stdout w ++ line "save_to_disk" ::
                  (if DEBUG w then [line "get_pid_cpu_percent"] else []);
        DEBUG := DEBUG w |}).
Proof.
  intros Hex Hrun Hread Hpct Hden text line.
  destruct (try_load_returns bf w) as [l Hl].
  unfold process_before_percent in Hpct. rewrite Hl in Hpct.
  unfold get_pid_cpu_percent, tb2unknown.
  rewrite (body_run os pid bf w st2 pt2 pct l Hex Hrun Hread Hl Hpct).
  rewrite save_to_disk_run, (bool_decide_eq_true_2 _ Hden).
  cbn. destruct (DEBUG w); cbn.
  - rewrite <- app_assoc. reflexivity.
  - reflexivity.
Qed.

(** The example machine with a read-only buffer file. *)
Lemma refused_write_is_reported_witness :
  fst (get_pid_cpu_percent Scenario.machine 42 Scenario.state_file
         {| files := files Scenario.after_t0;
            write_denied := {[ Scenario.state_file ]};
            stdout := []; DEBUG := false |}) = SysExit 3 /\
  files (snd (get_pid_cpu_percent Scenario.machine 42 Scenario.state_file
                {| files := files Scenario.after_t0;
                   write_denied := {[ Scenario.state_file ]};
                   stdout := []; DEBUG := false |})) = files Scenario.after_t0.
Proof.
  rewrite (refused_write_is_reported Scenario.machine 42 Scenario.state_file
             {| files := files Scenario.after_t0;
                write_denied := {[ Scenario.state_file ]};
                stdout := []; DEBUG := false |}
             (Fin (inject_Z 110)) Scenario.counters_t1
             (Fin (100 * ((inject_Z 14 - inject_Z 10) + (inject_Z 6 - inject_Z 5))
                   / (inject_Z 110 - inject_Z 100))%Q))
    by first [vm_compute; reflexivity | apply elem_of_singleton; reflexivity].
  split; reflexivity.
Defined.

End SamplerExtras.

(* ===================================================================== *)
(** ** The matcher is sound, and what that means for [NagiosThreshold] *)
(* ===================================================================== *)

Module InitExtras.
Import Re ReFacts ReLang Threshold ThresholdFacts FloatFacts.

(** What the matcher consumed is in the language of the expression. *)
Lemma repeat_sound r :
  (forall s g st, In st (run r s g) -> exists p, s = p ++ fst st /\ matches r p) ->
  forall fuel s g st, In st (repeat_ (run r) fuel s g) ->
    exists p, s = p ++ fst st /\ matches (Plus r) p.
Proof.
  intros Hstep fuel. induction fuel as [|fuel IH]; intros s g st Hin; cbn [repeat_] in Hin.
  - apply Hstep in Hin as [p [-> Hm]]. exists p. split; [reflexivity|].
    apply matches_plus_once, Hm.
  - apply in_flat_map in Hin as [st1 [H1 H2]].
    apply Hstep in H1 as [p1 [-> Hm1]].
    apply in_app_or in H2 as [H2|[<-|[]]].
    + apply IH in H2 as [p2 [E Hm2]]. exists (p1 ++ p2). rewrite E, app_assoc.
      split; [reflexivity|]. apply matches_plus_more; assumption.
    + exists p1. split; [reflexivity|]. apply matches_plus_once, Hm1.
Qed.

Lemma run_sound r :
  forall s g st, In st (run r s g) -> exists p, s = p ++ fst st /\ matches r p.
Proof.
  induction r as [c| |r1 IH1 r2 IH2|r1 IH1 r2 IH2|r1 IH1|r1 IH1|name r1 IH1];
    intros s g st Hin; cbn [run] in Hin.
  - destruct s as [|c' s']; [destruct Hin|].
    destruct (Ascii.eqb_spec c c') as [<-|]; [|destruct Hin].
    destruct Hin as [<-|[]]. exists [c]. split; [reflexivity|constructor].
  - destruct s as [|c' s']; [destruct Hin|].
    destruct (is_digit c') eqn:Hd; [|destruct Hin].
    destruct Hin as [<-|[]]. exists [c']. split; [reflexivity|constructor; exact Hd].
  - apply in_flat_map in Hin as [st1 [H1 H2]].
    apply IH1 in H1 as [p1 [-> Hm1]]. apply IH2 in H2 as [p2 [E Hm2]].
    exists (p1 ++ p2). rewrite E, app_assoc. split; [reflexivity|].
    constructor; assumption.
  - apply in_app_or in Hin as [H|H].
    + apply IH1 in H as [p [E Hm]]. exists p. split; [exact E|apply matches_alt_l, Hm].
    + apply IH2 in H as [p [E Hm]]. exists p. split; [exact E|apply matches_alt_r, Hm].
  - apply in_app_or in Hin as [H|[<-|[]]].
    + apply IH1 in H as [p [E Hm]]. exists p. split; [exact E|apply matches_opt_take, Hm].
    + exists []. split; [reflexivity|constructor].
  - eapply repeat_sound; eauto.
  - apply in_map_iff in Hin as [st1 [<- H1]]. cbn [fst].
    apply IH1 in H1 as [p [E Hm]]. exists p. split; [exact E|constructor; exact Hm].
Qed.

(** The groups record only texts their bodies match. *)
Lemma repeat_groups P r :
  (forall s g st, groups_ok P g -> In st (run r s g) -> groups_ok P (snd st)) ->
  forall fuel s g st, groups_ok P g -> In st (repeat_ (run r) fuel s g) ->
    groups_ok P (snd st).
Proof.
  intros Hstep fuel. induction fuel as [|fuel IH]; intros s g st Hg Hin;
    cbn [repeat_] in Hin.
  - eapply Hstep; eauto.
  - apply in_flat_map in Hin as [st1 [H1 H2]].
    pose proof (Hstep s g st1 Hg H1) as Hg1.
    apply in_app_or in H2 as [H2|[<-|[]]]; [|exact Hg1].
    eapply IH; eauto.
Qed.

Lemma run_groups P r :
  every_group P r ->
  forall s g st, groups_ok P g -> In st (run r s g) -> groups_ok P (snd st).
Proof.
  induction r as [c| |r1 IH1 r2 IH2|r1 IH1 r2 IH2|r1 IH1|r1 IH1|name r1 IH1];
    intros Hr s g st Hg Hin; cbn [run] in Hin; cbn [every_group] in Hr.
  - destruct s as [|c' s']; [destruct Hin|].
    destruct (Ascii.eqb c c'); [|destruct Hin]. destruct Hin as [<-|[]]. exact Hg.
  - destruct s as [|c' s']; [destruct Hin|].
    destruct (is_digit c'); [|destruct Hin]. destruct Hin as [<-|[]]. exact Hg.
  - destruct Hr as [Hr1 Hr2]. apply in_flat_map in Hin as [st1 [H1 H2]].
    eapply IH2; [exact Hr2| |exact H2]. eapply IH1; eauto.
  - destruct Hr as [Hr1 Hr2]. apply in_app_or in Hin as [H|H]; eauto.
  - apply in_app_or in Hin as [H|[<-|[]]]; eauto.
  - eapply repeat_groups; eauto.
  - destruct Hr as [Hname Hr1]. apply in_map_iff in Hin as [st1 [<- H1]]. cbn [snd].
    pose proof (IH1 Hr1 s g st1 Hg H1) as Hg1.
    destruct (run_sound r1 s g st1 H1) as [p [E Hm]].
    intros name' t Hlook.
    destruct (decide (name = name')) as [<-|Hne].
    + rewrite lookup_insert_eq in Hlook. inversion Hlook; subst t.
      rewrite E at 2. rewrite E at 1. rewrite firstn_consumed. apply Hname, Hm.
    + rewrite lookup_insert_ne in Hlook by exact Hne. eapply Hg1; eauto.
Qed.

(** The texts [\\d+] matches: non-empty runs of digits. *)
Lemma matches_plus_digit p :
  matches (Plus Digit) p -> p <> [] /\ forallb is_digit p = true.
Proof.
  intros H. remember (Plus Digit) as r eqn:Er.
  induction H as [c|c Hc|r1 r2 p1 p2 H1 IH1 H2 IH2|r1 r2 p H IH|r1 r2 p H IH|r
                 |r p H IH|r p H IH|r p1 p2 H1 IH1 H2 IH2|name r p H IH];
    try discriminate Er.
  - inversion Er; subst r. inversion H as [|c Hc| | | | | | | |]; subst.
    cbn. rewrite Hc. split; [discriminate|reflexivity].
  - inversion Er; subst r. inversion H1 as [|c Hc| | | | | | | |]; subst.
    destruct (IH2 eq_refl) as [_ Hall].
    cbn. rewrite Hc, Hall. split; [discriminate|reflexivity].
Qed.

Lemma span_digits_all ds rest :
  forallb is_digit ds = true -> stops rest -> span_digits (ds ++ rest) = (ds, rest).
Proof.
  intros Hd Hs. induction ds as [|d ds IH]; cbn [app].
  - destruct rest as [|c rest]; [reflexivity|]. cbn in Hs. cbn. rewrite Hs. reflexivity.
  - cbn in Hd. apply andb_true_iff in Hd as [Hd1 Hd2].
    cbn [span_digits]. rewrite Hd1, (IH Hd2). reflexivity.
Qed.

Lemma digits_value_nonneg ds acc :
  forallb is_digit ds = true -> 0 <= acc ->
  0 <= fold_left (fun a c => 10 * a + (Z.of_nat (nat_of_ascii c) - 48)) ds acc.
Proof.
  revert acc. induction ds as [|d ds IH]; intros acc Hd Hacc; cbn [fold_left]; [exact Hacc|].
  cbn in Hd. apply andb_true_iff in Hd as [Hd1 Hd2]. apply IH; [exact Hd2|].
  unfold is_digit in Hd1. apply andb_true_iff in Hd1 as [Hlo _].
  apply Nat.leb_le in Hlo. lia.
Qed.

(** [float()] accepts every text the number pattern matches, and the value
    is not negative: a finite double, or plus infinity for a number beyond
    the largest double. *)
Lemma py_float_number t :
  matches number t -> exists x, py_float t = inr x /\ nonneg_float x.
Proof.
  unfold number. intros H.
  inversion H as [| |r1 r2 p1 p2 H1 H2| | | | | | |]; subst.
  destruct (matches_plus_digit p1 H1) as [Hne1 Hall1].
  pose proof (digits_value_nonneg p1 0 Hall1 (Z.le_refl 0)) as Hv1.
  fold (digits_value p1) in Hv1.
  inversion H2 as [| | | | |r|r p H3| | |]; subst.
  - rewrite app_nil_r. unfold py_float.
    pose proof (span_digits_all p1 [] Hall1 I) as E. rewrite app_nil_r in E. rewrite E.
    cbn [fst snd]. destruct p1 as [|c p1]; [congruence|].
    eexists. split; [reflexivity|]. apply round_to_double_nonneg. exact Hv1.
  - inversion H3 as [| |r1 r2 q1 q2 H4 H5| | | | | | |]; subst.
    inversion H4; subst.
    destruct (matches_plus_digit q2 H5) as [Hne2 Hall2].
    pose proof (digits_value_nonneg q2 0 Hall2 (Z.le_refl 0)) as Hv2.
    fold (digits_value q2) in Hv2.
    unfold py_float. cbn [app].
    rewrite (span_digits_all p1 ("."%char :: q2) Hall1 eq_refl).
    cbn [fst snd]. destruct p1 as [|c p1]; [congruence|].
    change (Ascii.eqb "." ".") with true. rewrite Hall2. cbn [andb].
    destruct q2 as [|c2 q2]; [congruence|]. cbn [length Nat.eqb negb].
    eexists. split; [reflexivity|]. apply round_to_double_nonneg.
    assert (0 <= 10 ^ Z.of_nat (S (length q2))) by (apply Z.pow_nonneg; lia).
    nia.
Qed.

(** What the two boundary groups of the pattern can record. *)
Definition boundary_texts (name : string) (t : list ascii) : Prop :=
  (name = "low_boundary" -> t = ["~"%char] \/ matches number t) /\
  (name = "high_boundary" -> matches number t).

Lemma pattern_groups : every_group boundary_texts pattern.
Proof.
  unfold pattern, number. cbn [every_group]. repeat split; try discriminate.
  - intros _. inversion H; subst; [right; assumption|].
    left. match goal with H' : matches (Chr _) _ |- _ => inversion H' end. reflexivity.
  - intros _. assumption.
Qed.

Lemma flat_map_nonempty {A B} (f : A -> list B) x tl :
  f x <> [] -> flat_map f (x :: tl) <> [].
Proof.
  intros Hx H. cbn in H. apply app_eq_nil in H as [H _]. exact (Hx H).
Qed.

(** The pattern matches at the start of every text. *)
Lemma run_pattern_nonempty s g : run pattern s g <> [].
Proof.
  rewrite pattern_eq, run_cat.
  assert (Hhead : exists st tl, run (Grp "is_inclusive" (Opt (Chr "@"))) s g = st :: tl).
  { cbn [run]. destruct (match s with
                          | [] => []
                          | c' :: s' => if Ascii.eqb "@" c' then [(s', g)] else []
                          end) as [|x l]; cbn; eauto. }
  destruct Hhead as [st [tl ->]].
  apply flat_map_nonempty. rewrite run_cat.
  assert (Hopt : exists st' tl', run (Opt low_colon) (fst st) (snd st) = st' :: tl').
  { rewrite run_opt. destruct (run low_colon (fst st) (snd st)); cbn; eauto. }
  destruct Hopt as [st' [tl' ->]].
  apply flat_map_nonempty. unfold high_opt. rewrite run_opt.
  destruct (run (Grp "high_boundary" number) (fst st') (snd st')); discriminate.
Qed.

Lemma re_match_pattern s :
  exists m, re_match pattern s = Some m /\ groups_ok boundary_texts m.
Proof.
  unfold re_match. pose proof (run_pattern_nonempty s ∅) as Hne.
  destruct (run pattern s ∅) as [|st tl] eqn:E; [congruence|].
  exists (snd st). split; [reflexivity|].
  apply (run_groups boundary_texts pattern pattern_groups s ∅ st).
  - intros name t Hl. rewrite lookup_empty in Hl. discriminate Hl.
  - rewrite E. left. reflexivity.
Qed.

(** X7.  [NagiosThreshold(raw)] raises for the empty text only.  Every other
    text (of characters below 256, as all texts here) builds a threshold, and what it builds never has a negative
    boundary and never NaN: the low boundary is the int [0], minus infinity
    or a float not below zero, the high boundary is a float not below
    zero; such a float is a finite double or, for a number written beyond
    the largest double, plus infinity. *)
Theorem init_rejects_only_empty_text (raw : string) :
  raw <> EmptyString ->
  exists th,
    init raw = inr th /\
    (low_boundary th = NInt 0 \/ low_boundary th = NFloat NegInf \/
     exists x, low_boundary th = NFloat x /\ nonneg_float x) /\
    (exists x, high_boundary th = NFloat x /\ nonneg_float x).
Proof.
  intros Hraw. unfold init.
  destruct (String.eqb_spec raw EmptyString) as [->|_]; [congruence|].
  destruct (re_match_pattern (list_ascii_of_string raw)) as [m [-> Hm]].
  assert (Hhigh : exists h,
             match m !! "high_boundary" with
             | Some text => py_float text
             | None => inr PosInf
             end = inr h /\ nonneg_float h).
  { destruct (m !! "high_boundary") as [t|] eqn:El.
    - exact (py_float_number t (proj2 (Hm _ _ El) eq_refl)).
    - exists PosInf. split; [reflexivity|left; reflexivity]. }
  destruct Hhigh as [h [Eh Hh]]. rewrite Eh.
  assert (Hhigh' : exists x, NFloat h = NFloat x /\ nonneg_float x)
    by (exists h; split; [reflexivity|exact Hh]).
  destruct (m !! "low_boundary") as [t|] eqn:El.
  - destruct (String.eqb (string_of_list_ascii t) "~") eqn:Etilde.
    + eexists. split; [reflexivity|]. cbn. split; [right; left; reflexivity|exact Hhigh'].
    + destruct (proj1 (Hm _ _ El) eq_refl) as [->|Hnum].
      * discriminate Etilde.
      * destruct (py_float_number t Hnum) as [x [E Hx]]. rewrite E.
        eexists. split; [reflexivity|]. cbn.
        split; [right; right; exists x; split; [reflexivity|exact Hx]|exact Hhigh'].
  - eexists. split; [reflexivity|]. cbn. split; [left; reflexivity|exact Hhigh'].
Qed.

(** A negative range cannot be written: ["-5:-1"] builds the default
    range.  A boundary of 400 digits is plus infinity. *)
Lemma init_rejects_only_empty_text_witness :
  init "-5:-1" = inr {| inclusive := false; low_boundary := NInt 0;
                        high_boundary := NFloat PosInf |} /\
  init (string_of_list_ascii (repeat "9"%char 400 ++ [":"%char])) =
    inr {| inclusive := false; low_boundary := NFloat PosInf;
           high_boundary := NFloat PosInf |} /\
  exists th, init "-5:-1" = inr th.
Proof.
  split; [vm_compute; reflexivity|]. split; [vm_compute; reflexivity|].
  destruct (init_rejects_only_empty_text "-5:-1" ltac:(discriminate)) as [th [E _]].
  exists th. exact E.
Defined.

End InitExtras.

(* ===================================================================== *)
(** ** Resolving the pid, naming the buffer file *)
(* ===================================================================== *)

Module CommandExtras.
Import Re ReFacts Threshold ThresholdFacts.

Lemma digit_char_not_space d : is_space (digit_char d) = false.
Proof. destruct d; reflexivity. Qed.

Lemma lstrip_spaces ws s :
  forallb is_space ws = true -> lstrip (ws ++ s) = lstrip s.
Proof.
  induction ws as [|c ws IH]; intros H; [reflexivity|].
  cbn in H. apply andb_true_iff in H as [Hc Hws]. cbn [app lstrip]. rewrite Hc. auto.
Qed.

Lemma lstrip_digits (l : list digit) s :
  l <> [] -> lstrip (map digit_char l ++ s) = map digit_char l ++ s.
Proof.
  destruct l as [|d l]; [congruence|]. intros _. cbn. rewrite digit_char_not_space.
  reflexivity.
Qed.

Lemma forallb_rev {A} (f : A -> bool) l : forallb f (rev l) = forallb f l.
Proof.
  induction l as [|a l IH]; [reflexivity|].
  cbn. rewrite forallb_app, IH. cbn. rewrite andb_true_r. apply andb_comm.
Qed.

(** [strip] removes blank space around a run of digits and nothing else. *)
Lemma strip_padded_digits lead p trail :
  forallb is_space lead = true -> forallb is_space trail = true ->
  strip (lead ++ digits_text p ++ trail) = digits_text p.
Proof.
  intros Hl Ht. unfold strip, digits_text.
  rewrite (lstrip_spaces lead _ Hl).
  rewrite (lstrip_digits (digits_list p) trail) by discriminate.
  rewrite rev_app_distr.
  rewrite (lstrip_spaces (rev trail) _) by (rewrite forallb_rev; exact Ht).
  rewrite <- map_rev.
  pose proof (lstrip_digits (rev (digits_list p)) []) as E.
  rewrite app_nil_r in E. rewrite E.
  - rewrite map_rev. apply rev_involutive.
  - unfold digits_list. cbn. intros H. apply app_eq_nil in H as [_ H]. discriminate H.
Qed.

Lemma isdigit_digits_text p : isdigit (digits_text p) = true.
Proof.
  unfold isdigit. rewrite digits_text_cons at 1. cbn [length Nat.eqb negb andb].
  apply (digits_all_digits (digits_list p)).
Qed.

(** X8.  When the command ends with return code 0 and prints a run of
    decimal digits, with any blank space before and after (the newline of
    [echo], say), [get_pid_from_command] returns the number the digits
    denote and prints nothing, provided the interpreter converts that many
    digits; beyond its limit (more than 4300 digits by default) the body
    raises the [ValueError] of [int()] instead. *)
Theorem get_pid_from_printed_digits (os : Collaborators) (shell_command : string)
    (w : World) (lead trail stderr : list ascii) (p : digits) :
  run_shell os shell_command = inr (0, lead ++ digits_text p ++ trail, stderr) ->
  forallb is_space lead = true ->
  forallb is_space trail = true ->
  if too_many_digits os (length (digits_text p)) then
    get_pid_from_command_body os shell_command w =
      (Raise (Exn ValueError
                ("Exceeds the limit (" +:+ pretty (int_max_str_digits os)
                 +:+ " digits) for integer string conversion: value has "
                 +:+ pretty (length (digits_text p))
                 +:+ " digits; use sys.set_int_max_str_digits() to increase the limit")),
       w)
  else
    get_pid_from_command os shell_command w = (Return (digits_val p), w).
Proof.
  intros Hsh Hl Ht.
  unfold get_pid_from_command, tb2unknown, get_pid_from_command_body,
    mbind, M_bind, bind, lift, assert_msg, int_bytes.
  rewrite Hsh. cbn [ret mret M_ret fst snd Z.eqb].
  rewrite (strip_padded_digits lead p trail Hl Ht), isdigit_digits_text.
  cbn [ret mret M_ret]. 
  destruct (too_many_digits os (length (digits_text p))); [reflexivity|].
  rewrite digits_value_text. reflexivity.
Qed.

(** The example machine's command prints [42]; a newline after it changes
    nothing. *)
Lemma get_pid_from_printed_digits_witness :
  get_pid_from_command
    {| pid_exists := pid_exists Scenario.machine;
       is_running := is_running Scenario.machine;
       read_counters := read_counters Scenario.machine;
       percent_of := percent_of Scenario.machine;
       cpu_count := 4;
       run_shell := fun _ => inr (0, list_ascii_of_string " 42" ++ ["010"%char], []);
       decode_utf8 := decode_utf8 Scenario.machine;
       int_max_str_digits := 4300;
       str_float := str_float Scenario.machine;
       fmt_1f := fmt_1f Scenario.machine;
       fmt_0f := fmt_0f Scenario.machine;
       tempdir := "/tmp";
       script_name := "check_process_cpu_usage.py" |}
    "pidof nginx" Scenario.first_boot = (Return 42, Scenario.first_boot).
Proof.
  apply (get_pid_from_printed_digits
           {| pid_exists := pid_exists Scenario.machine;
              is_running := is_running Scenario.machine;
              read_counters := read_counters Scenario.machine;
              percent_of := percent_of Scenario.machine;
              cpu_count := 4;
              run_shell := fun _ => inr (0, list_ascii_of_string " 42" ++ ["010"%char], []);
              decode_utf8 := decode_utf8 Scenario.machine;
              int_max_str_digits := 4300;
              str_float := str_float Scenario.machine;
              fmt_1f := fmt_1f Scenario.machine;
              fmt_0f := fmt_0f Scenario.machine;
              tempdir := "/tmp";
              script_name := "check_process_cpu_usage.py" |}
           "pidof nginx" Scenario.first_boot
           [" "%char] ["010"%char] [] (Digits D4 [D2]));
    reflexivity.
Defined.

(** X9.  With [DEBUG] off, a command that ends with a return code other
    than 0, or whose output, once stripped, is not a non-empty run of
    digits (blank output, a sign, two numbers), makes
    [get_pid_from_command] print one UNKNOWN line and end the script with
    [sys.exit(3)].  The line names the [AssertionError] with the decoded
    output in its message; when the output (or, for a failed command, the
    error output) is not UTF-8, building that message fails and the line
    names the codec's error instead. *)
Theorem get_pid_refuses_failed_command (os : Collaborators) (shell_command : string)
    (w : World) (returncode : Z) (out err : list ascii) :
  DEBUG w = false ->
  run_shell os shell_command = inr (returncode, out, err) ->
  returncode <> 0 \/ isdigit (strip out) = false ->
  exists e,
    get_pid_from_command os shell_command w =
      (SysExit 3,
       {| files := files w; write_denied := write_denied w;
          stdout := stdout w ++
            ["UNKNOWN: Got exception while running get_pid_from_command: "
             +:+ class_name (exc_cls e) +:+ ": " +:+ exc_str e];
          DEBUG := false |}) /\
    e =
      match decode_utf8 os out with
      | inl undecodable => undecodable
      | inr text =>
          if Z.eqb returncode 0
          then Exn AssertionError
                 ("Command return stdout " +:+ text
                  +:+ " that cannot be converter to PID (integer)")
          else
            match decode_utf8 os err with
            | inl undecodable => undecodable
            | inr errors =>
                Exn AssertionError
                  ("Command return exit code != 0: output: " +:+ text
                   +:+ " " +:+ errors)
            end
      end.
Proof.
  intros Hdbg Hsh Hbad. eexists. split; [|reflexivity].
  unfold get_pid_from_command, tb2unknown, get_pid_from_command_body,
    mbind, M_bind, bind, lift, assert_msg, exit_code_message, not_a_pid_message.
  rewrite Hsh. cbn [ret fst snd].
  destruct (Z.eqb_spec returncode 0) as [->|Hrc].
  - destruct Hbad as [Hbad|Hbad]; [congruence|]. cbn [mret M_ret ret]. rewrite Hbad.
    destruct (decode_utf8 os out) as [e1|text]; cbn; rewrite Hdbg; reflexivity.
  - destruct (decode_utf8 os out) as [e1|text]; [cbn; rewrite Hdbg; reflexivity|].
    destruct (decode_utf8 os err) as [e2|errors]; cbn; rewrite Hdbg; reflexivity.
Qed.

(** A command that prints [-1]. *)
Lemma get_pid_refuses_failed_command_witness :
  get_pid_from_command
    {| pid_exists := pid_exists Scenario.machine;
       is_running := is_running Scenario.machine;
       read_counters := read_counters Scenario.machine;
       percent_of := percent_of Scenario.machine;
       cpu_count := 4;
       run_shell := fun _ => inr (0, list_ascii_of_string "-1", []);
       decode_utf8 := decode_utf8 Scenario.machine;
       int_max_str_digits := 4300;
       str_float := str_float Scenario.machine;
       fmt_1f := fmt_1f Scenario.machine;
       fmt_0f := fmt_0f Scenario.machine;
       tempdir := "/tmp";
       script_name := "check_process_cpu_usage.py" |}
    "echo -1" Scenario.first_boot =
  (SysExit 3,
   {| files := ∅; write_denied := ∅;
      stdout := ["UNKNOWN: Got exception while running get_pid_from_command: "
                 +:+ "AssertionError: Command return stdout -1 that cannot be "
                 +:+ "converter to PID (integer)"];
      DEBUG := false |}).
Proof.
  destruct (get_pid_refuses_failed_command
              {| pid_exists := pid_exists Scenario.machine;
                 is_running := is_running Scenario.machine;
                 read_counters := read_counters Scenario.machine;
                 percent_of := percent_of Scenario.machine;
                 cpu_count := 4;
                 run_shell := fun _ => inr (0, list_ascii_of_string "-1", []);
                 decode_utf8 := decode_utf8 Scenario.machine;
                 int_max_str_digits := 4300;
                 str_float := str_float Scenario.machine;
                 fmt_1f := fmt_1f Scenario.machine;
                 fmt_0f := fmt_0f Scenario.machine;
                 tempdir := "/tmp";
                 script_name := "check_process_cpu_usage.py" |}
              "echo -1" Scenario.first_boot 0 (list_ascii_of_string "-1") []
              eq_refl eq_refl (or_intror eq_refl)) as [e [E ->]].
  rewrite E. reflexivity.
Defined.

Lemma string_length_app a b :
  String.length (a +:+ b) = (String.length a + String.length b)%nat.
Proof. induction a as [|c a IH]; simpl; [reflexivity|]. f_equal. exact IH. Qed.

Lemma string_app_inv_tail a b t : a +:+ t = b +:+ t -> a = b.
Proof.
  revert b. induction a as [|c a IH]; intros [|c' b] H.
  - reflexivity.
  - apply (f_equal String.length) in H. rewrite !string_length_app in H.
    simpl in H. lia.
  - apply (f_equal String.length) in H. rewrite !string_length_app in H.
    simpl in H. lia.
  - simpl in H. injection H as -> H. f_equal. apply IH, H.
Qed.

Lemma buffer_path_inj os pid1 pid2 :
  buffer_path os pid1 = buffer_path os pid2 -> pid1 = pid2.
Proof.
  unfold buffer_path. intros H.
  apply String.app_inj in H. apply (String.app_inj "/") in H.
  apply String.app_inj in H. apply (String.app_inj "_pid_") in H.
  apply string_app_inv_tail in H. apply pretty_Z_inj in H. exact H.
Qed.

(** X10.  The buffer file is named after the pid, and two different pids
    never get the same name: probes of different processes do not read or
    overwrite each other's state. *)
Theorem buffer_paths_differ (os : Collaborators) (pid1 pid2 : Z) :
  pid1 <> pid2 -> buffer_path os pid1 <> buffer_path os pid2.
Proof. intros Hne H. apply Hne. exact (buffer_path_inj os pid1 pid2 H). Qed.

Lemma buffer_paths_differ_witness :
  buffer_path Scenario.machine 42 = Scenario.state_file /\
  buffer_path Scenario.machine 42 <> buffer_path Scenario.machine 7.
Proof.
  split; [vm_compute; reflexivity|].
  apply (buffer_paths_differ Scenario.machine 42 7). discriminate.
Defined.

End CommandExtras.

(* ===================================================================== *)
(** ** The script as a whole *)
(* ===================================================================== *)

Module MainExtras.
Import StoreFacts ProbeFacts LoadFacts MainFacts SamplerExtras InitExtras Threshold.




Lemma classify_code os pct pid tw tc :
  0 <= snd (classify os pct pid tw tc) <= 2.
Proof.
  unfold classify.
  destruct (truthy _); [cbn; lia|]. destruct (truthy _); cbn; lia.
Qed.




(** X12.  The successful path end to end.  When the pid is resolved, the
    sampler returns a percentage and both threshold texts parse, the
    script prints exactly one more line, [MESSAGE|PERFDATA], and ends with
    [sys.exit(CODE)], where [MESSAGE] and [CODE] come from the
    classification, so the code is 0, 1 or 2; the files are as the sampler
    left them. *)
Theorem main_reports_classification (os : Collaborators) (W C P : string) (debug : bool)
    (w w1 w2 : World) (PID : Z) (pct : pyfloat) (tw tc : NagiosThreshold) :
  get_pid_from_command os P
    {| files := files w; write_denied := write_denied w;
       stdout := stdout w; DEBUG := debug |} = (Return PID, w1) ->
  get_pid_cpu_percent os PID (buffer_path os PID) w1 = (Return pct, w2) ->
  init W = inr tw ->
  init C = inr tc ->
  main os (Arguments W C P debug) w =
    (SysExit (snd (classify os pct PID tw tc)),
     {| files := files w2; write_denied := write_denied w2;
        stdout := stdout w2 ++
          [fst (classify os pct PID tw tc) +:+ "|" +:+ perfdata os pct tw tc];
        DEBUG := DEBUG w2 |}) /\
  0 <= snd (classify os pct PID tw tc) <= 2.
Proof.
  intros Hpid Hpct HW HC. rewrite main_unfold, Hpid, Hpct, HW, HC.
  split; [reflexivity|apply classify_code].
Qed.

(** The specification's end-to-end scenario on the example machine: 50
    percent against warning ["40"] and critical ["60"] is a WARNING. *)
Lemma main_reports_classification_witness :
  fst (main Scenario.machine (Arguments "40" "60" "pidof nginx" false) Scenario.after_t0) =
    SysExit 1 /\
  last (stdout (snd (main Scenario.machine (Arguments "40" "60" "pidof nginx" false)
                       Scenario.after_t0))) =
    Some ("WARNING: <float>% CPU usage for PID 42 is outside warning limits "
          +:+ "(<float>>=<float>)|cpu_percentage=<float>%;0..<float>;0..<float>;0;400").
Proof.
  destruct (main_reports_classification Scenario.machine "40" "60" "pidof nginx" false
              Scenario.after_t0
              (snd (get_pid_from_command Scenario.machine "pidof nginx" Scenario.after_t0))
              (snd (get_pid_cpu_percent Scenario.machine 42 Scenario.state_file
                      Scenario.after_t0))
              42
              (Fin (100 * ((inject_Z 14 - inject_Z 10) + (inject_Z 6 - inject_Z 5))
                    / (inject_Z 110 - inject_Z 100))%Q)
              {| inclusive := false; low_boundary := NInt 0;
                 high_boundary := NFloat (Fin (inject_Z 40)) |}
              {| inclusive := false; low_boundary := NInt 0;
                 high_boundary := NFloat (Fin (inject_Z 60)) |})
    as [E _]; try (vm_compute; reflexivity).
  rewrite E. split; vm_compute; reflexivity.
Defined.

End MainExtras.

(* ===================================================================== *)
(** ** More on evaluating a threshold *)
(* ===================================================================== *)

Module ThresholdExtras.
Import Threshold.

Lemma fle_true_iff a b : fle a b = true <-> float_le a b.
Proof.
  destruct a as [| |x|], b as [| |y|]; simpl; try tauto; try (split; [discriminate|tauto]).
  apply Qle_bool_iff.
Qed.

Lemma flt_true_iff a b : flt a b = true <-> float_lt a b.
Proof.
  destruct a as [| |x|], b as [| |y|]; simpl; try tauto; try (split; [discriminate|tauto]).
  rewrite negb_true_iff. split.
  - intros H. apply Qnot_le_lt. intros Hle. apply Qle_bool_iff in Hle. congruence.
  - intros H. destruct (Qle_bool y x) eqn:E; [|reflexivity].
    apply Qle_bool_iff in E. exfalso. exact (Qlt_not_le _ _ H E).
Qed.

Lemma float_lt_le a b : float_lt a b -> float_le a b.
Proof.
  destruct a as [| |x|], b as [| |y|]; simpl; try tauto. apply Qlt_le_weak.
Qed.

Lemma float_lt_trans_le a b c : float_lt a b -> float_le b c -> float_lt a c.
Proof.
  destruct a as [| |x|], b as [| |y|], c as [| |z|]; simpl; try tauto. apply Qlt_le_trans.
Qed.

Lemma float_not_lt_le a b :
  a <> NaN -> b <> NaN -> flt a b = false -> float_le b a.
Proof.
  intros Ha Hb H. apply fle_true_iff.
  destruct a, b; cbn in *; try reflexivity; try discriminate; try congruence.
  apply negb_false_iff in H. exact H.
Qed.

Lemma float_not_le_lt a b :
  a <> NaN -> b <> NaN -> fle a b = false -> float_lt b a.
Proof.
  intros Ha Hb H. apply flt_true_iff.
  destruct a, b; cbn in *; try reflexivity; try discriminate; try congruence.
  rewrite H. reflexivity.
Qed.

Lemma float_lt_not_nan a b : float_lt a b -> a <> NaN /\ b <> NaN.
Proof. destruct a, b; cbn; intros H; try tauto; split; discriminate. Qed.

(** X13.  The [@] prefix only removes alerts.  Whatever the boundaries, a
    value that violates the inclusive reading of a range also violates the
    exclusive reading of the same range. *)
Theorem inclusive_violation_is_exclusive_violation (str_float : pyfloat -> string)
    (low high v : pynum) :
  is_outside_boundaries str_float
    {| inclusive := true; low_boundary := low; high_boundary := high |} v <> None ->
  is_outside_boundaries str_float
    {| inclusive := false; low_boundary := low; high_boundary := high |} v <> None.
Proof.
  unfold is_outside_boundaries, num_gt, num_ge, num_lt, num_le. cbn.
  destruct (flt (to_float v) (to_float low)) eqn:E1.
  - intros _. apply flt_true_iff, float_lt_le, fle_true_iff in E1. rewrite E1. discriminate.
  - destruct (flt (to_float high) (to_float v)) eqn:E2; [|congruence].
    intros _. apply flt_true_iff, float_lt_le, fle_true_iff in E2. rewrite E2.
    destruct (fle (to_float v) (to_float low)); discriminate.
Qed.

Lemma inclusive_violation_is_exclusive_violation_witness :
  is_outside_boundaries (fun _ => "<float>")
    {| inclusive := false; low_boundary := NFloat (Fin (inject_Z 10));
       high_boundary := NFloat (Fin (inject_Z 20)) |} (NInt 5) <> None.
Proof.
  apply inclusive_violation_is_exclusive_violation. vm_compute. discriminate.
Defined.

(** X14.  A range written backwards alerts on every number.  When the high
    boundary is below the low boundary, as in ["20:10"], no number is
    inside the range, with or without [@].  Only NaN, which compares false
    with everything, raises no alert. *)
Theorem backwards_range_always_alerts (str_float : pyfloat -> string)
    (th : NagiosThreshold) (v : pynum) :
  lt (high_boundary th) (low_boundary th) ->
  match to_float v with
  | NaN => is_outside_boundaries str_float th v = None
  | _ => is_outside_boundaries str_float th v <> None
  end.
Proof.
  unfold lt. intros Hback.
  destruct (float_lt_not_nan _ _ Hback) as [Hhigh Hlow].
  assert (Hnum : to_float v <> NaN -> is_outside_boundaries str_float th v <> None).
  { intros Hv. unfold is_outside_boundaries, num_gt, num_ge, num_lt, num_le.
    destruct (inclusive th).
    - destruct (flt (to_float v) (to_float (low_boundary th))) eqn:E1; [discriminate|].
      apply (float_not_lt_le _ _ Hv Hlow) in E1.
      pose proof (float_lt_trans_le _ _ _ Hback E1) as H. apply flt_true_iff in H.
      rewrite H. discriminate.
    - destruct (fle (to_float v) (to_float (low_boundary th))) eqn:E1; [discriminate|].
      apply (float_not_le_lt _ _ Hv Hlow), float_lt_le in E1.
      pose proof (float_lt_trans_le _ _ _ Hback E1) as H.
      apply float_lt_le, fle_true_iff in H. rewrite H. discriminate. }
  destruct (to_float v) eqn:Ev; try (apply Hnum; discriminate).
  unfold is_outside_boundaries, num_gt, num_ge, num_lt, num_le. rewrite Ev.
  destruct (inclusive th); cbn;
    destruct (to_float (low_boundary th)), (to_float (high_boundary th)); reflexivity.
Qed.

Lemma backwards_range_always_alerts_witness :
  init "20:10" = inr {| inclusive := false;
                        low_boundary := NFloat (Fin (inject_Z 20));
                        high_boundary := NFloat (Fin (inject_Z 10)) |} /\
  is_outside_boundaries (fun _ => "<float>")
    {| inclusive := false; low_boundary := NFloat (Fin (inject_Z 20));
       high_boundary := NFloat (Fin (inject_Z 10)) |} (NInt 15) <> None.
Proof.
  split; [vm_compute; reflexivity|].
  apply (backwards_range_always_alerts (fun _ => "<float>")
           {| inclusive := false; low_boundary := NFloat (Fin (inject_Z 20));
              high_boundary := NFloat (Fin (inject_Z 10)) |} (NInt 15)).
  vm_compute. reflexivity.
Defined.

End ThresholdExtras.
